(** * Expense-Tracker: per-user expense forecasting (server/ml)

    A shallow embedding of [expense_predictor.py], [personalized_model.py],
    [personalized_predict.py] and [update_user_model.py].

    Modelling conventions.
    - A Python float is an exact rational in canonical form ([Qc]), so that
      equal numbers are equal terms.  NaN, infinities and rounding are outside
      the model; every constant of the source (0.8, 1.2, 1.3, ...) is the
      rational it denotes.
    - The neural network and the feature scaler are opaque: a regressor is a
      function from a scaled feature row to a number, a scaler a function from
      a feature row to a scaled row, and either may raise.
    - The file system is explicit state: the two base artifacts next to the
      scripts and one directory per user identifier under [user_models/].
    - A Python exception is a [Raise] result; [sys.exit(1)] is [None] at the
      places where the source leaves the process. *)

From Stdlib Require Import QArith Qcanon ZArith Lqa.
From stdpp Require Import base numbers option list sorting gmap strings.

Open Scope Z_scope.
Open Scope Qc_scope.

(** ** Numbers *)

Abbreviation pyfloat := Qc (only parsing).

(** A decimal literal of the source. *)
Definition lit (q : Q) : pyfloat := Q2Qc q.

(** Python's builtin [min(a, b)]: the later argument replaces the earlier one
    only when it is strictly smaller. *)
Definition py_min (a b : pyfloat) : pyfloat := if decide (b < a) then b else a.

(** Python's builtin [max(a, b)]: the later argument replaces the earlier one
    only when it is strictly greater. *)
Definition py_max (a b : pyfloat) : pyfloat := if decide (a < b) then b else a.

(** [np.maximum] / [np.minimum] on scalars: [a > b ? a : b], [a < b ? a : b]. *)
Definition np_maximum (a b : pyfloat) : pyfloat := if decide (b < a) then a else b.
Definition np_minimum (a b : pyfloat) : pyfloat := if decide (a < b) then a else b.

(** [np.clip(x, lo, hi)] is [np.minimum(np.maximum(x, lo), hi)]. *)
Definition np_clip (x lo hi : pyfloat) : pyfloat := np_minimum (np_maximum x lo) hi.

(** Order reasoning on canonical rationals, through [lra] on their values. *)
Ltac qc_order :=
  repeat match goal with
  | H : ¬ (_ < _)%Qc |- _ => apply Qcnot_lt_le in H
  | H : ¬ (_ ≤ _)%Qc |- _ => apply Qcnot_le_lt in H
  end;
  first
    [ reflexivity
    | exfalso; unfold Qclt, Qcle in *; lra
    | unfold Qclt, Qcle in *; lra
    | apply Qcle_antisym; unfold Qclt, Qcle in *; lra ].

Ltac qc_cases :=
  repeat (case_decide; simpl in * ); try qc_order.

(** ** Bounds post-processing, as written at its three places *)

Module ExpensePredictor_bounds.

(** [expense_predictor.py], lines 73-91. *)
Definition bounds (expenses : pyfloat) (month : Z) (income : pyfloat)
  : pyfloat * pyfloat :=
  let min_prediction := expenses * lit 0.8 in
  let max_prediction := expenses * lit 1.2 in
  let '(min_prediction, max_prediction) :=
    if bool_decide (10 ≤ month)%Z && bool_decide (month ≤ 12)%Z
    then (min_prediction, expenses * lit 1.3)
    else if bool_decide (1 ≤ month)%Z && bool_decide (month ≤ 2)%Z
    then (expenses * lit 0.9, max_prediction)
    else (min_prediction, max_prediction) in
  if decide (0 < income) then
    let max_allowed := py_min (income * lit 0.3) (expenses * lit 1.5) in
    let min_allowed := py_max (income * lit 0.01) (expenses * lit 0.5) in
    let max_prediction := py_min max_prediction max_allowed in
    let min_prediction := py_max min_prediction min_allowed in
    (min_prediction, max_prediction)
  else (min_prediction, max_prediction).

(** Lines 73-96: the bounds, then [float(np.clip(raw, min, max))]. *)
Definition postprocess (raw_prediction expenses : pyfloat) (month : Z)
    (income : pyfloat) : pyfloat :=
  let '(min_prediction, max_prediction) := bounds expenses month income in
  np_clip raw_prediction min_prediction max_prediction.

End ExpensePredictor_bounds.

Module Personalized_bounds.

(** [personalized_model.py], lines 317-331 (the blended path). *)
Definition bounds (expenses : pyfloat) (month : Z) (income : pyfloat)
  : pyfloat * pyfloat :=
  let min_prediction := expenses * lit 0.8 in
  let max_prediction := expenses * lit 1.2 in
  let '(min_prediction, max_prediction) :=
    if bool_decide (10 ≤ month)%Z && bool_decide (month ≤ 12)%Z
    then (min_prediction, expenses * lit 1.3)
    else if bool_decide (1 ≤ month)%Z && bool_decide (month ≤ 2)%Z
    then (expenses * lit 0.9, max_prediction)
    else (min_prediction, max_prediction) in
  if decide (0 < income) then
    let max_allowed := py_min (income * lit 0.3) (expenses * lit 1.5) in
    let min_allowed := py_max (income * lit 0.01) (expenses * lit 0.5) in
    let max_prediction := py_min max_prediction max_allowed in
    let min_prediction := py_max min_prediction min_allowed in
    (min_prediction, max_prediction)
  else (min_prediction, max_prediction).

(** Lines 317-334. *)
Definition postprocess (prediction expenses : pyfloat) (month : Z)
    (income : pyfloat) : pyfloat :=
  let '(min_prediction, max_prediction) := bounds expenses month income in
  np_clip prediction min_prediction max_prediction.

(** Lines 356-368 (inside the [except] handler). *)
Definition fallback_bounds (expenses : pyfloat) (month : Z) (income : pyfloat)
  : pyfloat * pyfloat :=
  let min_prediction := expenses * lit 0.8 in
  let max_prediction := expenses * lit 1.2 in
  let '(min_prediction, max_prediction) :=
    if bool_decide (10 ≤ month)%Z && bool_decide (month ≤ 12)%Z
    then (min_prediction, expenses * lit 1.3)
    else if bool_decide (1 ≤ month)%Z && bool_decide (month ≤ 2)%Z
    then (expenses * lit 0.9, max_prediction)
    else (min_prediction, max_prediction) in
  if decide (0 < income) then
    let max_allowed := py_min (income * lit 0.3) (expenses * lit 1.5) in
    let min_allowed := py_max (income * lit 0.01) (expenses * lit 0.5) in
    let max_prediction := py_min max_prediction max_allowed in
    let min_prediction := py_max min_prediction min_allowed in
    (min_prediction, max_prediction)
  else (min_prediction, max_prediction).

(** Lines 356-370. *)
Definition fallback_postprocess (base_prediction expenses : pyfloat)
    (month : Z) (income : pyfloat) : pyfloat :=
  let '(min_prediction, max_prediction) := fallback_bounds expenses month income in
  np_clip base_prediction min_prediction max_prediction.

End Personalized_bounds.

(** ** Exceptions *)

Inductive exn := ValueError | ArtifactError.

Inductive res (A : Type) := Val (a : A) | Raise (e : exn).
Arguments Val {A} a.
Arguments Raise {A} e.

Definition res_bind {A B : Type} (m : res A) (k : A → res B) : res B :=
  match m with Val a => k a | Raise e => Raise e end.

Notation "'let!' x ':=' m 'in' k" := (res_bind m (λ x, k))
  (at level 10, x name, m at level 100, k at level 200).

(** ** Opaque learned artifacts and the files that hold them *)

(** One row [[income, expenses, month, savings]] of a feature matrix. *)
Record features := Features {
  f_income : pyfloat; f_expenses : pyfloat; f_month : pyfloat; f_savings : pyfloat }.

(** [scaler.transform] and [model.predict(..)[0][0]]; both may raise. *)
Definition Scaler := features → res features.
Definition Regressor := features → res pyfloat.

(** A path on disk: nothing there, something unreadable, or a readable value. *)
Inductive file (A : Type) := Absent | Corrupt | Stored (content : A).
Arguments Absent {A}.
Arguments Corrupt {A}.
Arguments Stored {A} content.

(** [path.exists()]. *)
Definition path_exists {A} (f : file A) : bool :=
  match f with Absent => false | _ => true end.

(** [tf.keras.models.load_model], [joblib.load], [json.load]. *)
Definition load {A} (f : file A) : res A :=
  match f with Stored a => Val a | _ => Raise ArtifactError end.

(** ** Transactions and metadata *)

Record Date := { year : Z; month_of_year : Z; day : Z }.

(** A record [{amount, type, date, currency, _id?}]; a [date] that
    [pd.to_datetime] cannot parse is [None]. *)
Record transaction := {
  amount : pyfloat;
  type : string;
  date : option Date;
  currency : string;
  _id : option string }.

(** [metadata.json]; timestamps are seconds on a clock supplied by the caller. *)
Record Metadata := {
  created_at : Z;
  last_trained : option Z;
  training_count : nat;
  transaction_count : nat;
  base_model_weight : pyfloat;
  personal_model_weight : pyfloat;
  performance_metrics : option pyfloat * option pyfloat }.

(** The directory [user_models/<user_id>/]. *)
Record user_dir := {
  model_path : file Regressor;
  scaler_path : file Scaler;
  data_path : option (list transaction);
  metadata_path : file Metadata }.

Definition empty_dir : user_dir :=
  {| model_path := Absent; scaler_path := Absent;
     data_path := None; metadata_path := Absent |}.

(** The files under [SCRIPT_DIR]. *)
Record World := {
  base_model_path : file Regressor;
  base_scaler_path : file Scaler;
  user_models : gmap string user_dir }.

Definition user_dir_of (w : World) (user_id : string) : user_dir :=
  default empty_dir (user_models w !! user_id).

Definition write_dir (w : World) (user_id : string) (d : user_dir) : World :=
  {| base_model_path := base_model_path w;
     base_scaler_path := base_scaler_path w;
     user_models := <[user_id := d]> (user_models w) |}.

(** What a Python function hands back where it may also fall off its end. *)
Inductive pyvalue := PyFloat (x : pyfloat) | PyNone.

(** ** expense_predictor.py *)

Module ExpensePredictor.

Record t := { model : Regressor; scaler : Scaler }.

(** [__init__]: [None] when the process exits (missing file) or the load
    raises. *)
Definition init (w : World) : option t :=
  if negb (path_exists (base_model_path w)) then None
  else match load (base_model_path w) with
       | Raise _ => None
       | Val model =>
         if negb (path_exists (base_scaler_path w)) then None
         else match load (base_scaler_path w) with
              | Raise _ => None
              | Val scaler => Some {| model := model; scaler := scaler |}
              end
       end.

(** The body of the outer [try] of [predict] (lines 32-103).  [month] is the
    integer of the feature schema. *)
Definition predict_body (self : t) (income expenses : pyfloat) (month : Z)
    (savings : pyfloat) : res pyfloat :=
  if decide (income ≤ 0) then Raise ValueError
  else
    let expenses :=
      if decide (expenses ≤ 0) then py_max (income * lit 0.1) (lit 1000)
      else expenses in
    if bool_decide (month < 1)%Z || bool_decide (month > 12)%Z then Raise ValueError
    else
      let input_data := Features income expenses (Qc_of_Z month) savings in
      let! scaled_input := scaler self input_data in
      let! raw_prediction := model self scaled_input in
      Val (ExpensePredictor_bounds.postprocess raw_prediction expenses month income).

(** [predict]: any exception ends in [sys.exit(1)], here [None]. *)
Definition predict (self : t) (income expenses : pyfloat) (month : Z)
    (savings : pyfloat) : option pyfloat :=
  match predict_body self income expenses month savings with
  | Val final_prediction => Some final_prediction
  | Raise _ => None
  end.

(** [main] without the argument parsing: construct, predict, print. *)
Definition main (w : World) (income expenses : pyfloat) (month : Z)
    (savings : pyfloat) : option pyfloat :=
  predictor ← init w;
  predict predictor income expenses month savings.

End ExpensePredictor.

(** ** personalized_model.py: the transaction aggregator *)

(** The key ['%Y-%m'] of a month: (year, month).  For the four-digit years of
    a pandas timestamp the order of these strings is the order of the pairs. *)
Abbreviation year_month_key := (Z * Z)%type (only parsing).

Definition ym_le (a b : year_month_key) : Prop :=
  (a.1 < b.1)%Z ∨ (a.1 = b.1 ∧ (a.2 ≤ b.2)%Z).

Global Instance ym_le_dec : RelDecision ym_le.
Proof. intros a b. unfold ym_le. apply _. Defined.

(** A row of [data] after lines 153-155 added [month] and [year_month]. *)
Record dated := {
  d_amount : pyfloat; d_type : string; d_month : Z; d_year_month : year_month_key }.

(** Lines 153-155: [pd.to_datetime] raises on a date it cannot parse. *)
Definition with_months (data : list transaction) : option (list dated) :=
  mapM (λ t, d ← date t;
             Some {| d_amount := amount t; d_type := type t;
                     d_month := month_of_year d;
                     d_year_month := (year d, month_of_year d) |}) data.

Definition sum_floats (l : list pyfloat) : pyfloat := foldr Qcplus 0 l.

Definition group_key (r : dated) : year_month_key * Z * string :=
  (d_year_month r, d_month r, d_type r).

(** Lines 158-160: [groupby(['year_month','month','type']).agg(sum)], one row
    per key that occurs, holding the sum of the amounts of its group. *)
Definition monthly_data (data : list dated)
  : list ((year_month_key * Z * string) * pyfloat) :=
  (λ k, (k, sum_floats (d_amount <$> filter (λ r, group_key r = k) data)))
    <$> remove_dups (group_key <$> data).

(** One row of the pivot table: its index and its cell in each column. *)
Record pivot_row := {
  p_year_month : year_month_key; p_month : Z; p_cell : string → pyfloat }.

Record pivot := { columns : list string; rows : list pivot_row }.

Definition fill_value : pyfloat := 0.

(** [aggfunc='mean'] over the grouped rows under one index and column; an
    index without such a row gets [fill_value]. *)
Definition pivot_cell (md : list ((year_month_key * Z * string) * pyfloat))
    (index : year_month_key * Z) (column : string) : pyfloat :=
  match snd <$> filter (λ kv, kv.1 = (index, column)) md with
  | [] => fill_value
  | vs => sum_floats vs / Qc_of_Z (Z.of_nat (length vs))
  end.

(** Lines 163-168: [pivot_table(index=['year_month','month'], columns='type',
    values='amount', fill_value=0)].  The columns are the types that occur in
    the log; the index holds the (year_month, month) pairs that occur, sorted
    (the month being that of the key, the key alone decides the order). *)
Definition pivot_table (md : list ((year_month_key * Z * string) * pyfloat)) : pivot :=
  let index :=
    merge_sort (λ a b : year_month_key * Z, ym_le a.1 b.1)
               (remove_dups ((λ kv, (kv.1.1.1, kv.1.1.2)) <$> md)) in
  {| columns := remove_dups ((λ kv, kv.1.2) <$> md);
     rows := (λ i, {| p_year_month := i.1; p_month := i.2;
                      p_cell := pivot_cell md i |}) <$> index |}.

(** A row once line 175 added the [savings] column. *)
Record monthly_row := {
  m_year_month : year_month_key; m_month : Z;
  m_income : pyfloat; m_expense : pyfloat; m_savings : pyfloat }.

Definition add_savings (r : pivot_row) : monthly_row :=
  {| m_year_month := p_year_month r; m_month := p_month r;
     m_income := p_cell r "income"; m_expense := p_cell r "expense";
     m_savings := p_cell r "income" - p_cell r "expense" |}.

(** Line 182: [sort_values('year_month')]. *)
Definition sort_values (l : list monthly_row) : list monthly_row :=
  merge_sort (λ a b, ym_le (m_year_month a) (m_year_month b)) l.

(** Lines 188-199: row [i] gives the features, row [i+1] the target. *)
Definition training_pairs (l : list monthly_row) : list (features * pyfloat) :=
  zip_with (λ current next_month,
              (Features (m_income current) (m_expense current)
                        (Qc_of_Z (m_month current)) (m_savings current),
               m_expense next_month))
           l (tail l).

(** Every failure returns [(None, None)]; they differ in the message. *)
Inductive prepare_failure :=
  | NoTransactionData
  | InsufficientDataTypes
  | InsufficientSequentialData
  | PreparationError.

(** The sorted monthly table of lines 150-182, when the type check passes. *)
Definition monthly_table (data : list transaction)
  : prepare_failure + list monthly_row :=
  match with_months data with
  | None => inl PreparationError
  | Some data =>
    let monthly_pivot := pivot_table (monthly_data data) in
    if bool_decide ("income" ∉ columns monthly_pivot)
       || bool_decide ("expense" ∉ columns monthly_pivot)
    then inl InsufficientDataTypes
    else inr (sort_values (add_savings <$> rows monthly_pivot))
  end.

(** [prepare_training_data] on the contents of the user's data file. *)
Definition prepare_training_data (data_file : option (list transaction))
  : prepare_failure + (list features * list pyfloat) :=
  match data_file with
  | None => inl NoTransactionData
  | Some data =>
    match monthly_table data with
    | inl e => inl e
    | inr monthly_pivot =>
      let pairs := training_pairs monthly_pivot in
      let X_data := fst <$> pairs in
      let y_data := snd <$> pairs in
      if bool_decide (X_data = []) || bool_decide (y_data = [])
      then inl InsufficientSequentialData
      else inr (X_data, y_data)
    end
  end.

(** ** personalized_model.py: the per-user predictor *)

(** What [model.fit] leaves in [history.history]: the last validation MAE and
    the last validation loss, when recorded. *)
Record History := { val_mae : option pyfloat; val_loss : option pyfloat }.

Definition set_model_path (d : user_dir) (f : file Regressor) : user_dir :=
  {| model_path := f; scaler_path := scaler_path d;
     data_path := data_path d; metadata_path := metadata_path d |}.

Definition set_scaler_path (d : user_dir) (f : file Scaler) : user_dir :=
  {| model_path := model_path d; scaler_path := f;
     data_path := data_path d; metadata_path := metadata_path d |}.

Definition set_data_path (d : user_dir) (f : option (list transaction)) : user_dir :=
  {| model_path := model_path d; scaler_path := scaler_path d;
     data_path := f; metadata_path := metadata_path d |}.

Definition set_metadata_path (d : user_dir) (f : file Metadata) : user_dir :=
  {| model_path := model_path d; scaler_path := scaler_path d;
     data_path := data_path d; metadata_path := f |}.

(** [scaler.transform(X)] on a matrix: row by row, raising if a row does. *)
Fixpoint transform (scaler : Scaler) (X : list features) : res (list features) :=
  match X with
  | [] => Val []
  | x :: X => let! x' := scaler x in let! X' := transform scaler X in Val (x' :: X')
  end.

(** [drop_duplicates(subset=['_id'])]: the first row of each identifier stays. *)
Fixpoint drop_duplicates_id (seen : list (option string)) (l : list transaction)
  : list transaction :=
  match l with
  | [] => []
  | r :: l =>
    if decide (_id r ∈ seen) then drop_duplicates_id seen l
    else r :: drop_duplicates_id (_id r :: seen) l
  end.

(** ['_id' in combined_data.columns]. *)
Definition has_id_column (l : list transaction) : bool :=
  existsb (λ r, bool_decide (is_Some (_id r))) l.

Module PersonalizedExpensePredictor.

(** The object: its user identifier (all paths derive from it) and the
    metadata dictionary held in memory. *)
Record t := { user_id : string; metadata : Metadata }.

(** Lines 42-53. *)
Definition default_metadata (now : Z) : Metadata :=
  {| created_at := now; last_trained := None;
     training_count := 0; transaction_count := 0;
     base_model_weight := lit 1.0; personal_model_weight := lit 0.0;
     performance_metrics := (None, None) |}.

Definition _save_metadata (user_id : string) (metadata : Metadata) (w : World)
  : World :=
  write_dir w user_id
    (set_metadata_path (user_dir_of w user_id) (Stored metadata)).

Definition _load_metadata (user_id : string) (now : Z) (w : World)
  : res (Metadata * World) :=
  if path_exists (metadata_path (user_dir_of w user_id)) then
    let! metadata := load (metadata_path (user_dir_of w user_id)) in
    Val (metadata, w)
  else
    let metadata := default_metadata now in
    Val (metadata, _save_metadata user_id metadata w).

(** Lines 65-86: copy the base model, then the base scaler. *)
Definition _initialize_from_base_model (user_id : string) (w : World)
  : bool * World :=
  if negb (path_exists (base_model_path w))
     || negb (path_exists (base_scaler_path w))
  then (false, w)
  else
    match load (base_model_path w) with
    | Raise _ => (false, w)
    | Val base_model =>
      let w := write_dir w user_id
                 (set_model_path (user_dir_of w user_id) (Stored base_model)) in
      match load (base_scaler_path w) with
      | Raise _ => (false, w)
      | Val base_scaler =>
        (true, write_dir w user_id
                 (set_scaler_path (user_dir_of w user_id) (Stored base_scaler)))
      end
    end.

(** [__init__] (lines 16-33). *)
Definition init (user_id : string) (now : Z) (w : World) : res (t * World) :=
  let w := write_dir w user_id (user_dir_of w user_id) in
  let! loaded := _load_metadata user_id now w in
  let '(metadata, w) := loaded in
  let w :=
    if negb (path_exists (model_path (user_dir_of w user_id)))
       || negb (path_exists (scaler_path (user_dir_of w user_id)))
    then (_initialize_from_base_model user_id w).2
    else w in
  Val ({| user_id := user_id; metadata := metadata |}, w).

Definition _count_transactions (self : t) (w : World) : nat :=
  match data_path (user_dir_of w (user_id self)) with
  | None => 0%nat
  | Some data => length data
  end.

(** Lines 88-111. *)
Definition add_transaction_data (self : t) (transactions_df : list transaction)
    (w : World) : t * World :=
  let d := user_dir_of w (user_id self) in
  let written :=
    match data_path d with
    | Some existing_data =>
      let combined_data := existing_data ++ transactions_df in
      if has_id_column combined_data
      then drop_duplicates_id [] combined_data
      else combined_data
    | None => transactions_df
    end in
  let w := write_dir w (user_id self) (set_data_path d (Some written)) in
  let md := metadata self in
  let metadata :=
    {| created_at := created_at md; last_trained := last_trained md;
       training_count := training_count md;
       transaction_count := _count_transactions self w;
       base_model_weight := base_model_weight md;
       personal_model_weight := personal_model_weight md;
       performance_metrics := performance_metrics md |} in
  ({| user_id := user_id self; metadata := metadata |},
   _save_metadata (user_id self) metadata w).

(** Lines 124-140; [.days] of a time difference is its floor in days. *)
Definition should_retrain (self : t) (now : Z) (min_transactions : nat)
    (min_days : Z) (w : World) : bool :=
  if negb (bool_decide (is_Some (data_path (user_dir_of w (user_id self)))))
  then false
  else if bool_decide (_count_transactions self w < min_transactions)%nat
  then false
  else match last_trained (metadata self) with
       | None => true
       | Some last_trained =>
         let days_since_training := ((now - last_trained) `div` 86400)%Z in
         bool_decide (days_since_training >= min_days)%Z
       end.

(** Lines 251-261: the blend weights after a training run. *)
Definition blend_weights (md : Metadata) : pyfloat * pyfloat :=
  let transaction_count := transaction_count md in
  if (100 <? transaction_count)%nat then (lit 0.3, lit 0.7)
  else if (50 <? transaction_count)%nat then (lit 0.5, lit 0.5)
  else if (20 <? transaction_count)%nat then (lit 0.7, lit 0.3)
  else (base_model_weight md, personal_model_weight md).

Section Training.

(** [model.fit] with early stopping on the validation loss (patience 10,
    best weights restored): from the loaded model, the scaled features,
    the targets, the epochs, the batch size and the validation split to
    the fitted model and its history, or an exception. *)
Variable fit :
  Regressor → list features → list pyfloat → nat → nat → pyfloat →
  res (Regressor * History).

(** Lines 211-279. *)
Definition train_model (self : t) (now : Z) (epochs : nat)
    (validation_split : pyfloat) (w : World) : bool * t * World :=
  let d := user_dir_of w (user_id self) in
  match prepare_training_data (data_path d) with
  | inl _ => (false, self, w)
  | inr (X, y) =>
    if bool_decide (length X < 3)%nat then (false, self, w)
    else
      match (let! model := load (model_path d) in
             let! scaler := load (scaler_path d) in
             let! X_scaled := transform scaler X in
             fit model X_scaled y epochs (32 `min` length X)%nat
                 validation_split) with
      | Raise _ => (false, self, w)
      | Val (model, history) =>
        let w := write_dir w (user_id self) (set_model_path d (Stored model)) in
        let md := metadata self in
        let weights := blend_weights md in
        let metadata :=
          {| created_at := created_at md;
             last_trained := Some now;
             training_count := S (training_count md);
             transaction_count := transaction_count md;
             base_model_weight := weights.1;
             personal_model_weight := weights.2;
             performance_metrics := (val_mae history, val_loss history) |} in
        (true, {| user_id := user_id self; metadata := metadata |},
         _save_metadata (user_id self) metadata w)
      end
  end.

End Training.

(** The [try] block of [predict] (lines 284-336). *)
Definition predict_personalized (self : t) (income expenses : pyfloat)
    (month : Z) (savings : pyfloat) (w : World) : res pyfloat :=
  let d := user_dir_of w (user_id self) in
  let! model := load (model_path d) in
  let! scaler := load (scaler_path d) in
  let input_data := Features income expenses (Qc_of_Z month) savings in
  let! scaled_input := scaler input_data in
  let! prediction := model scaled_input in
  let base_weight := base_model_weight (metadata self) in
  let personal_weight := personal_model_weight (metadata self) in
  let! prediction :=
    (if decide (0 < base_weight) then
       if path_exists (base_model_path w) && path_exists (base_scaler_path w)
       then
         let! base_model := load (base_model_path w) in
         let! base_scaler := load (base_scaler_path w) in
         let! base_scaled_input := base_scaler input_data in
         let! base_prediction := base_model base_scaled_input in
         Val (base_prediction * base_weight + prediction * personal_weight)
       else Val prediction
     else Val prediction) in
  Val (Personalized_bounds.postprocess prediction expenses month income).

(** The inner [try] block of the handler (lines 343-371): [Val PyNone] when
    the [if] is not taken and control runs off the end of the function. *)
Definition predict_fallback (income expenses : pyfloat) (month : Z)
    (savings : pyfloat) (w : World) : res pyvalue :=
  if path_exists (base_model_path w) && path_exists (base_scaler_path w)
  then
    let! base_model := load (base_model_path w) in
    let! base_scaler := load (base_scaler_path w) in
    let input_data := Features income expenses (Qc_of_Z month) savings in
    let! base_scaled_input := base_scaler input_data in
    let! base_prediction := base_model base_scaled_input in
    Val (PyFloat (Personalized_bounds.fallback_postprocess
                    base_prediction expenses month income))
  else Val PyNone.

(** [predict] (lines 281-374). *)
Definition predict (self : t) (income expenses : pyfloat) (month : Z)
    (savings : pyfloat) (w : World) : pyvalue :=
  match predict_personalized self income expenses month savings w with
  | Val final_prediction => PyFloat final_prediction
  | Raise _ =>
    match predict_fallback income expenses month savings w with
    | Val v => v
    | Raise _ => PyFloat (expenses * lit 1.05)
    end
  end.

End PersonalizedExpensePredictor.

(** ** personalized_predict.py, update_user_model.py and runs of the system *)

Section Runs.

Variable fit :
  Regressor → list features → list pyfloat → nat → nat → pyfloat →
  res (Regressor * History).

(** [personalized_predict.predict]: what is printed (if anything), the
    success flag, and the files afterwards.  When the constructor raises,
    the only trace is the user's empty directory. *)
Definition personalized_predict (user_id : string) (now : Z)
    (income expenses : pyfloat) (month : Z) (savings : pyfloat) (w : World)
  : option pyvalue * bool * World :=
  match PersonalizedExpensePredictor.init user_id now w with
  | Raise _ => (None, false, write_dir w user_id (user_dir_of w user_id))
  | Val (model, w) =>
    (Some (PersonalizedExpensePredictor.predict model income expenses month savings w),
     true, w)
  end.

(** [update_user_model.update_user_model] on the parsed transactions. *)
Definition update_user_model (user_id : string) (now : Z)
    (transactions : list transaction) (w : World) : bool * World :=
  match PersonalizedExpensePredictor.init user_id now w with
  | Raise _ => (false, write_dir w user_id (user_dir_of w user_id))
  | Val (model, w) =>
    let '(model, w) :=
      PersonalizedExpensePredictor.add_transaction_data model transactions w in
    if PersonalizedExpensePredictor.should_retrain model now 10 7 w
    then (true, (PersonalizedExpensePredictor.train_model
                   fit model now 150 (lit 0.2) w).2)
    else (true, w)
  end.

(** A method call on a constructed predictor. *)
Inductive call :=
  | AddTransactionData (transactions_df : list transaction)
  | TrainModel (now : Z) (epochs : nat) (validation_split : pyfloat)
  | Predict (income expenses : pyfloat) (month : Z) (savings : pyfloat).

Definition do_call (c : call) (s : PersonalizedExpensePredictor.t * World)
  : PersonalizedExpensePredictor.t * World :=
  match c with
  | AddTransactionData df =>
    PersonalizedExpensePredictor.add_transaction_data s.1 df s.2
  | TrainModel now epochs validation_split =>
    let r := PersonalizedExpensePredictor.train_model
               fit s.1 now epochs validation_split s.2 in
    (r.1.2, r.2)
  | Predict _ _ _ _ => s
  end.

(** What can happen to the files: a process constructs a predictor for a
    user and calls methods on it, or the base training script replaces the
    two base artifacts. *)
Inductive event :=
  | Session (user_id : string) (now : Z) (calls : list call)
  | BaseTrained (model : file Regressor) (scaler : file Scaler).

Definition step (w : World) (e : event) : World :=
  match e with
  | Session user_id now calls =>
    match PersonalizedExpensePredictor.init user_id now w with
    | Raise _ => write_dir w user_id (user_dir_of w user_id)
    | Val s => (foldl (λ s c, do_call c s) s calls).2
    end
  | BaseTrained model scaler =>
    {| base_model_path := model; base_scaler_path := scaler;
       user_models := user_models w |}
  end.

Definition run (events : list event) (w : World) : World := foldl step w events.

End Runs.

(** The user has a regressor file and a scaler file. *)
Definition bootstrapped (w : World) (user_id : string) : Prop :=
  path_exists (model_path (user_dir_of w user_id)) = true
  ∧ path_exists (scaler_path (user_dir_of w user_id)) = true.

(** ** The specification's own wording of the bounds post-processor
       (section 4.1) and of the weights table (section 4.4) *)

Module Spec.

Definition min3 (a b c : pyfloat) : pyfloat := py_min (py_min a b) c.
Definition max3 (a b c : pyfloat) : pyfloat := py_max (py_max a b) c.

(** Steps 1-3: base range, seasonal override, income sanity cap. *)
Definition computeBounds (expenses : pyfloat) (month : Z) (income : pyfloat)
  : pyfloat * pyfloat :=
  let lower := expenses * lit 0.8 in
  let upper := expenses * lit 1.2 in
  let upper := if decide (month ∈ [10; 11; 12]%Z) then expenses * lit 1.3 else upper in
  let lower :=
    if decide (month ∈ [10; 11; 12]%Z) then lower
    else if decide (month ∈ [1; 2]%Z) then expenses * lit 0.9 else lower in
  if decide (0 < income)
  then (max3 lower (income * lit 0.01) (expenses * lit 0.5),
        min3 upper (income * lit 0.3) (expenses * lit 1.5))
  else (lower, upper).

(** Step 4: [raw] clamped into the interval; an inverted interval is the
    single point [upper]. *)
Definition clampInto (raw lower upper : pyfloat) : pyfloat :=
  if decide (upper < lower) then upper
  else if decide (raw < lower) then lower
  else if decide (upper < raw) then upper
  else raw.

Definition clampPrediction (raw expenses : pyfloat) (month : Z)
    (income : pyfloat) : pyfloat :=
  let '(lower, upper) := computeBounds expenses month income in
  clampInto raw lower upper.

(** Section 4.4: the weights table, [prior] being the weights so far. *)
Definition computeWeights (transactionCount : nat) (prior : pyfloat * pyfloat)
  : pyfloat * pyfloat :=
  if decide (100 < transactionCount)%nat then (lit 0.3, lit 0.7)
  else if decide (51 ≤ transactionCount ≤ 100)%nat then (lit 0.5, lit 0.5)
  else if decide (21 ≤ transactionCount ≤ 50)%nat then (lit 0.7, lit 0.3)
  else prior.

Definition defaultWeights : pyfloat * pyfloat := (lit 1.0, lit 0.0).

End Spec.

(** ** Notions used to state the theorems, and concrete scenarios *)

Definition with_transaction_count (n : nat) (md : Metadata) : Metadata :=
  {| created_at := created_at md; last_trained := last_trained md;
     training_count := training_count md; transaction_count := n;
     base_model_weight := base_model_weight md;
     personal_model_weight := personal_model_weight md;
     performance_metrics := performance_metrics md |}.

(** What an operation may do to the artifacts of user [uid]: the scaler file
    stays as it is, and a regressor file that exists still exists. *)
Definition keeps_scaler (uid : string) (w w' : World) : Prop :=
  scaler_path (user_dir_of w' uid) = scaler_path (user_dir_of w uid)
  ∧ (path_exists (model_path (user_dir_of w uid)) = true →
     path_exists (model_path (user_dir_of w' uid)) = true).

(** A user with a scaler file also has a regressor file: the copy at bootstrap
    writes the regressor first. *)
Definition artifacts_consistent (w : World) (uid : string) : Prop :=
  path_exists (scaler_path (user_dir_of w uid)) = true →
  path_exists (model_path (user_dir_of w uid)) = true.

Definition identity_scaler : Scaler := λ x, Val x.

Definition constant_model (c : pyfloat) : Regressor := λ _, Val c.

(** A stand-in for [model.fit]: the fitted model predicts the mean target. *)
Definition mean_fit (model : Regressor) (X_scaled : list features)
    (y : list pyfloat) (epochs batch_size : nat) (validation_split : pyfloat)
  : res (Regressor * History) :=
  Val (constant_model (sum_floats y / Qc_of_Z (Z.of_nat (length y))),
       {| val_mae := Some (lit 12); val_loss := Some (lit 200) |}).

Definition empty_world : World :=
  {| base_model_path := Absent; base_scaler_path := Absent; user_models := ∅ |}.

Definition base_only (bm : Regressor) (bs : Scaler) : World :=
  {| base_model_path := Stored bm; base_scaler_path := Stored bs;
     user_models := ∅ |}.

Definition tx (a : Q) (ty : string) (y m d : Z) : transaction :=
  {| amount := lit a; type := ty;
     date := Some {| year := y; month_of_year := m; day := d |};
     currency := "INR"; _id := None |}.

(** Four months, each with one salary and five expenses: 24 transactions. *)
Definition one_month (y m : Z) (salary spend : Q) : list transaction :=
  tx salary "income" y m 1
  :: ((λ d, tx spend "expense" y m d) <$> [3; 8; 13; 18; 23]%Z).

Definition demo_log : list transaction :=
  one_month 2023 11 50000 800 ++ one_month 2023 12 50000 900
  ++ one_month 2024 1 52000 700 ++ one_month 2024 2 52000 750.

Definition demo_world : World := base_only (constant_model (lit 4200)) identity_scaler.

Definition demo_calls : list call :=
  [AddTransactionData demo_log; TrainModel 86400 100 (lit 0.2);
   Predict (lit 50000) (lit 4000) 3 (lit 46000)].

Definition demo_events : list event :=
  [BaseTrained Corrupt Absent;
   Session "u2" 90000 [AddTransactionData demo_log];
   BaseTrained (Stored (constant_model (lit 1))) (Stored (λ _, Raise ArtifactError));
   Session "u1" 950400 [AddTransactionData demo_log; TrainModel 950400 150 (lit 0.2)]].

(** The predictor of user "u1" and the files, once the log is added. *)
Definition demo_loaded : PersonalizedExpensePredictor.t * World :=
  match PersonalizedExpensePredictor.init "u1" 0 demo_world with
  | Val (self, w) => PersonalizedExpensePredictor.add_transaction_data self demo_log w
  | Raise _ =>
    ({| PersonalizedExpensePredictor.user_id := "u1";
        PersonalizedExpensePredictor.metadata :=
          PersonalizedExpensePredictor.default_metadata 0 |}, demo_world)
  end.

(** Strictly earlier month. *)
Definition ym_lt (a b : year_month_key) : Prop := ym_le a b ∧ a ≠ b.

(** In a row with month columns the month is that of the month-key. *)
Definition well_dated (r : dated) : Prop := d_month r = (d_year_month r).2.

(** The total of one type in one month: the sum over the matching rows. *)
Definition month_total (data : list dated) (ym : year_month_key) (ty : string)
  : pyfloat :=
  sum_floats (d_amount <$> filter (λ r, d_year_month r = ym ∧ d_type r = ty) data).

(** Some transaction of type [ty] falls in month [ym]. *)
Definition month_has (data : list dated) (ym : year_month_key) (ty : string)
  : Prop :=
  Exists (λ r, d_year_month r = ym ∧ d_type r = ty) data.

(** Some transaction of the log has type [ty]. *)
Definition log_has (data : list dated) (ty : string) : Prop :=
  Exists (λ r, d_type r = ty) data.

Global Instance month_has_dec data ym ty : Decision (month_has data ym ty).
Proof. unfold month_has. apply _. Defined.

Global Instance log_has_dec data ty : Decision (log_has data ty).
Proof. unfold log_has. apply _. Defined.

Global Instance features_eq_dec : EqDecision features.
Proof. solve_decision. Defined.

Global Instance prepare_failure_eq_dec : EqDecision prepare_failure.
Proof. solve_decision. Defined.

(** The index of the pivot table before sorting. *)
Definition monthly_index (data : list dated) : list (year_month_key * Z) :=
  remove_dups ((λ kv : (year_month_key * Z * string) * pyfloat, (kv.1.1.1, kv.1.1.2))
                 <$> monthly_data data).

(** What a row of the sorted monthly table says about the log. *)
Definition row_of_log (data : list dated) (row : monthly_row) : Prop :=
  (∃ r, r ∈ data ∧ d_year_month r = m_year_month row)
  ∧ m_month row = (m_year_month row).2
  ∧ m_income row = month_total data (m_year_month row) "income"
  ∧ m_expense row = month_total data (m_year_month row) "expense"
  ∧ m_savings row = m_income row - m_expense row
  ∧ (¬ month_has data (m_year_month row) "income" → m_income row = 0)
  ∧ (¬ month_has data (m_year_month row) "expense" → m_expense row = 0).

(** The table before [sort_values], from the sorted index. *)
Definition unsorted_rows (data : list dated) : list monthly_row :=
  add_savings <$> rows (pivot_table (monthly_data data)).

(** The month-keys that have both an income and an expense transaction. *)
Definition qualifying_months (data : list transaction) : list year_month_key :=
  match with_months data with
  | Some dated =>
    filter (λ ym, month_has dated ym "income" ∧ month_has dated ym "expense")
           (remove_dups (d_year_month <$> dated))
  | None => []
  end.

(** January with a salary and two expenses, February with a salary and one
    expense. *)
Definition jan_feb_log : list transaction :=
  [tx 1000 "income" 2024 1 2; tx 500 "expense" 2024 1 9;
   tx 300 "expense" 2024 1 21;
   tx 1100 "income" 2024 2 2; tx 750 "expense" 2024 2 14].

(** February has a salary but no expense. *)
Definition feb_without_expense_log : list transaction :=
  [tx 1000 "income" 2024 1 2; tx 800 "expense" 2024 1 9;
   tx 1100 "income" 2024 2 2].

(** January has a salary but no expense. *)
Definition jan_without_expense_log : list transaction :=
  [tx 1000 "income" 2024 1 2;
   tx 1100 "income" 2024 2 2; tx 750 "expense" 2024 2 14].

Definition tx_id (id : string) (a : Q) (ty : string) (y m d : Z) : transaction :=
  {| amount := lit a; type := ty;
     date := Some {| year := y; month_of_year := m; day := d |};
     currency := "INR"; _id := Some id |}.

(** Two rows with identifiers, and a batch that repeats them. *)
Definition ids_log : list transaction :=
  [tx_id "a1" 1000 "income" 2024 1 2; tx_id "a2" 800 "expense" 2024 1 9].

Definition ids_world : World :=
  write_dir demo_world "u1"
    {| model_path := Stored (constant_model (lit 4200));
       scaler_path := Stored identity_scaler;
       data_path := Some ids_log;
       metadata_path :=
         Stored (with_transaction_count 2
                   (PersonalizedExpensePredictor.default_metadata 0)) |}.

Definition ids_predictor : PersonalizedExpensePredictor.t :=
  {| PersonalizedExpensePredictor.user_id := "u1";
     PersonalizedExpensePredictor.metadata :=
       with_transaction_count 2 (PersonalizedExpensePredictor.default_metadata 0) |}.

(** The base artifacts and every directory but [u]'s are the same. *)
Definition same_elsewhere (u : string) (w w' : World) : Prop :=
  base_model_path w' = base_model_path w
  ∧ base_scaler_path w' = base_scaler_path w
  ∧ ∀ uid, uid ≠ u → user_dir_of w' uid = user_dir_of w uid.

(** The metadata file of the predictor's user holds what the predictor has in
    memory. *)
Definition in_sync (s : PersonalizedExpensePredictor.t * World) : Prop :=
  metadata_path (user_dir_of s.2 (PersonalizedExpensePredictor.user_id s.1))
  = Stored (PersonalizedExpensePredictor.metadata s.1).

(** Metadata that fits the data file beside it: the blend weights sum to 1,
    the base weight is positive, and the transaction count is the number of
    rows of the data file. *)
Definition sound_metadata (md : Metadata) (data : option (list transaction))
  : Prop :=
  base_model_weight md + personal_model_weight md = 1
  ∧ 0 < base_model_weight md
  ∧ 0 ≤ personal_model_weight md
  ∧ transaction_count md = length (default [] data).

Definition sound_dir (d : user_dir) : Prop :=
  (metadata_path d = Absent → data_path d = None)
  ∧ ∀ md, metadata_path d = Stored md → sound_metadata md (data_path d).

Definition sound_world (w : World) : Prop := ∀ uid, sound_dir (user_dir_of w uid).

(** What a session keeps true of its own user. *)
Definition session_ok (s : PersonalizedExpensePredictor.t * World) : Prop :=
  in_sync s
  ∧ sound_dir (user_dir_of s.2 (PersonalizedExpensePredictor.user_id s.1)).

(** The row of month [ym], from the log. *)
Definition row_for (data : list dated) (ym : year_month_key) : monthly_row :=
  {| m_year_month := ym; m_month := ym.2;
     m_income := month_total data ym "income";
     m_expense := month_total data ym "expense";
     m_savings := month_total data ym "income" - month_total data ym "expense" |}.

(** * Theorems *)

(** ** The bounds post-processor *)

Lemma month_in_festival (month : Z) :
  bool_decide (10 ≤ month)%Z && bool_decide (month ≤ 12)%Z = true
  ↔ month ∈ [10; 11; 12]%Z.
Proof.
  rewrite andb_true_iff, !bool_decide_eq_true, !elem_of_cons, elem_of_nil. lia.
Qed.

Lemma month_in_new_year (month : Z) :
  bool_decide (1 ≤ month)%Z && bool_decide (month ≤ 2)%Z = true
  ↔ month ∈ [1; 2]%Z.
Proof.
  rewrite andb_true_iff, !bool_decide_eq_true, !elem_of_cons, elem_of_nil. lia.
Qed.

(** Nested two-argument [min] and the three-argument [min] both return the
    first minimal argument. *)
Lemma py_min_first_minimal (a b c : pyfloat) :
  py_min a (py_min b c) = Spec.min3 a b c.
Proof. unfold Spec.min3, py_min. qc_cases. Qed.

Lemma py_max_first_maximal (a b c : pyfloat) :
  py_max a (py_max b c) = Spec.max3 a b c.
Proof. unfold Spec.max3, py_max. qc_cases. Qed.

Lemma np_clip_clampInto (raw lower upper : pyfloat) :
  np_clip raw lower upper = Spec.clampInto raw lower upper.
Proof. unfold np_clip, np_minimum, np_maximum, Spec.clampInto. qc_cases. Qed.

Ltac season_cases month :=
  let Hf := fresh "Hfestival" in
  let Hn := fresh "Hnewyear" in
  destruct (bool_decide (10 ≤ month)%Z && bool_decide (month ≤ 12)%Z) eqn:Hf;
  [ apply month_in_festival in Hf
  | apply not_true_iff_false in Hf; rewrite month_in_festival in Hf;
    destruct (bool_decide (1 ≤ month)%Z && bool_decide (month ≤ 2)%Z) eqn:Hn;
    [ apply month_in_new_year in Hn
    | apply not_true_iff_false in Hn; rewrite month_in_new_year in Hn ] ];
  repeat case_decide; try done.

Lemma base_bounds_spec (expenses : pyfloat) (month : Z) (income : pyfloat) :
  ExpensePredictor_bounds.bounds expenses month income
  = Spec.computeBounds expenses month income.
Proof.
  unfold ExpensePredictor_bounds.bounds, Spec.computeBounds; cbv zeta.
  season_cases month;
    rewrite <- ?py_min_first_minimal, <- ?py_max_first_maximal; reflexivity.
Qed.

Lemma personal_bounds_spec (expenses : pyfloat) (month : Z) (income : pyfloat) :
  Personalized_bounds.bounds expenses month income
  = Spec.computeBounds expenses month income.
Proof.
  unfold Personalized_bounds.bounds, Spec.computeBounds; cbv zeta.
  season_cases month;
    rewrite <- ?py_min_first_minimal, <- ?py_max_first_maximal; reflexivity.
Qed.

Lemma fallback_bounds_spec (expenses : pyfloat) (month : Z) (income : pyfloat) :
  Personalized_bounds.fallback_bounds expenses month income
  = Spec.computeBounds expenses month income.
Proof.
  unfold Personalized_bounds.fallback_bounds, Spec.computeBounds; cbv zeta.
  season_cases month;
    rewrite <- ?py_min_first_minimal, <- ?py_max_first_maximal; reflexivity.
Qed.

Lemma base_postprocess_spec raw expenses month income :
  ExpensePredictor_bounds.postprocess raw expenses month income
  = Spec.clampPrediction raw expenses month income.
Proof.
  unfold ExpensePredictor_bounds.postprocess, Spec.clampPrediction.
  rewrite base_bounds_spec.
  destruct (Spec.computeBounds expenses month income). apply np_clip_clampInto.
Qed.

Lemma personal_postprocess_spec raw expenses month income :
  Personalized_bounds.postprocess raw expenses month income
  = Spec.clampPrediction raw expenses month income.
Proof.
  unfold Personalized_bounds.postprocess, Spec.clampPrediction.
  rewrite personal_bounds_spec.
  destruct (Spec.computeBounds expenses month income). apply np_clip_clampInto.
Qed.

Lemma fallback_postprocess_spec raw expenses month income :
  Personalized_bounds.fallback_postprocess raw expenses month income
  = Spec.clampPrediction raw expenses month income.
Proof.
  unfold Personalized_bounds.fallback_postprocess, Spec.clampPrediction.
  rewrite fallback_bounds_spec.
  destruct (Spec.computeBounds expenses month income). apply np_clip_clampInto.
Qed.

(** The clamp lands in the interval spanned by the two bounds, whichever way
    round they are. *)
Lemma clampInto_between (raw lower upper : pyfloat) :
  py_min lower upper ≤ Spec.clampInto raw lower upper
  ∧ Spec.clampInto raw lower upper ≤ py_max lower upper.
Proof. unfold Spec.clampInto, py_min, py_max. split; qc_cases. Qed.

Lemma clampInto_inverted (raw lower upper : pyfloat) :
  upper < lower → Spec.clampInto raw lower upper = upper.
Proof. intros H. unfold Spec.clampInto. rewrite decide_True; done. Qed.

(** C4: the bounds post-processor written in the base predictor, in the
    personalized blended path and in the personalized fallback path is, each
    time, the function of section 4.1: base range [expenses*0.8,
    expenses*1.2]; upper bound [expenses*1.3] for months 10-12, else lower
    bound [expenses*0.9] for months 1-2, nothing for other months; for a
    positive income the upper bound capped by [income*0.3] and [expenses*1.5]
    and the lower bound raised to [income*0.01] and [expenses*0.5]; then the
    raw value clamped into the interval. *)
Theorem bounds_postprocessor_is_clampPrediction
    (raw expenses : pyfloat) (month : Z) (income : pyfloat) :
  ExpensePredictor_bounds.postprocess raw expenses month income
    = Spec.clampPrediction raw expenses month income
  ∧ Personalized_bounds.postprocess raw expenses month income
    = Spec.clampPrediction raw expenses month income
  ∧ Personalized_bounds.fallback_postprocess raw expenses month income
    = Spec.clampPrediction raw expenses month income.
Proof.
  split; [apply base_postprocess_spec|].
  split; [apply personal_postprocess_spec | apply fallback_postprocess_spec].
Qed.

(** C5: for positive expenses and any raw prediction, the output of the
    bounds post-processor (at each of its three places) lies between the
    smaller and the larger of the two bounds that section 4.1 computes. *)
Theorem clamped_inside_computed_interval
    (raw expenses : pyfloat) (month : Z) (income lowerBound upperBound : pyfloat) :
  0 < expenses →
  Spec.computeBounds expenses month income = (lowerBound, upperBound) →
  (py_min lowerBound upperBound
     ≤ ExpensePredictor_bounds.postprocess raw expenses month income
   ∧ ExpensePredictor_bounds.postprocess raw expenses month income
     ≤ py_max lowerBound upperBound)
  ∧ (py_min lowerBound upperBound
       ≤ Personalized_bounds.postprocess raw expenses month income
     ∧ Personalized_bounds.postprocess raw expenses month income
       ≤ py_max lowerBound upperBound)
  ∧ (py_min lowerBound upperBound
       ≤ Personalized_bounds.fallback_postprocess raw expenses month income
     ∧ Personalized_bounds.fallback_postprocess raw expenses month income
       ≤ py_max lowerBound upperBound).
Proof.
  intros _ Hb.
  rewrite base_postprocess_spec, personal_postprocess_spec,
    fallback_postprocess_spec.
  unfold Spec.clampPrediction. rewrite Hb.
  pose proof (clampInto_between raw lowerBound upperBound). tauto.
Qed.

(** C10: when the bounds the code computes are inverted (the upper one below
    the lower one), the clip returns exactly the upper bound, for every raw
    prediction and at each of the three places. *)
Theorem inverted_bounds_collapse_to_upper
    (raw expenses : pyfloat) (month : Z) (income min_prediction max_prediction : pyfloat) :
  ExpensePredictor_bounds.bounds expenses month income
    = (min_prediction, max_prediction) →
  max_prediction < min_prediction →
  Personalized_bounds.bounds expenses month income = (min_prediction, max_prediction)
  ∧ Personalized_bounds.fallback_bounds expenses month income
    = (min_prediction, max_prediction)
  ∧ ExpensePredictor_bounds.postprocess raw expenses month income = max_prediction
  ∧ Personalized_bounds.postprocess raw expenses month income = max_prediction
  ∧ Personalized_bounds.fallback_postprocess raw expenses month income
    = max_prediction.
Proof.
  intros Hb Hinv. rewrite base_bounds_spec in Hb.
  rewrite personal_bounds_spec, fallback_bounds_spec,
    base_postprocess_spec, personal_postprocess_spec, fallback_postprocess_spec.
  unfold Spec.clampPrediction. rewrite Hb.
  rewrite clampInto_inverted by assumption. done.
Qed.

Lemma pair_eq_components {A B} (p : A * B) (a : A) (b : B) :
  p.1 = a → p.2 = b → p = (a, b).
Proof. destruct p; simpl; congruence. Qed.

(** Closed facts about literals are settled by evaluation. *)
Ltac qc_eval :=
  lazymatch goal with
  | |- @eq Qc _ _ => apply Qc_is_canon; vm_compute; reflexivity
  | |- @eq (Qc * Qc)%type _ _ =>
    apply pair_eq_components; apply Qc_is_canon; vm_compute; reflexivity
  | |- (_ < _)%Qc => vm_compute; reflexivity
  | |- (_ ≤ _)%Qc => vm_compute; discriminate
  end.

Lemma clamped_inside_computed_interval_witness :
  (py_min (lit 4000) (lit 6500)
     ≤ ExpensePredictor_bounds.postprocess (lit 7000) (lit 5000) 11 (lit 50000)
   ∧ ExpensePredictor_bounds.postprocess (lit 7000) (lit 5000) 11 (lit 50000)
     ≤ py_max (lit 4000) (lit 6500))
  ∧ (py_min (lit 4000) (lit 6500)
       ≤ Personalized_bounds.postprocess (lit 7000) (lit 5000) 11 (lit 50000)
     ∧ Personalized_bounds.postprocess (lit 7000) (lit 5000) 11 (lit 50000)
       ≤ py_max (lit 4000) (lit 6500))
  ∧ (py_min (lit 4000) (lit 6500)
       ≤ Personalized_bounds.fallback_postprocess (lit 7000) (lit 5000) 11 (lit 50000)
     ∧ Personalized_bounds.fallback_postprocess (lit 7000) (lit 5000) 11 (lit 50000)
       ≤ py_max (lit 4000) (lit 6500)).
Proof.
  apply (clamped_inside_computed_interval
           (lit 7000) (lit 5000) 11 (lit 50000) (lit 4000) (lit 6500)).
  - qc_eval.
  - qc_eval.
Defined.

Lemma inverted_bounds_collapse_to_upper_witness :
  Personalized_bounds.bounds (lit 50000) 5 (lit 1000) = (lit 40000, lit 300)
  ∧ Personalized_bounds.fallback_bounds (lit 50000) 5 (lit 1000)
    = (lit 40000, lit 300)
  ∧ ExpensePredictor_bounds.postprocess (lit 45000) (lit 50000) 5 (lit 1000)
    = lit 300
  ∧ Personalized_bounds.postprocess (lit 45000) (lit 50000) 5 (lit 1000)
    = lit 300
  ∧ Personalized_bounds.fallback_postprocess (lit 45000) (lit 50000) 5 (lit 1000)
    = lit 300.
Proof.
  apply (inverted_bounds_collapse_to_upper
           (lit 45000) (lit 50000) 5 (lit 1000) (lit 40000) (lit 300)).
  - qc_eval.
  - qc_eval.
Defined.

(** ** The blend weights *)

Lemma blend_weights_spec (md : Metadata) :
  PersonalizedExpensePredictor.blend_weights md
  = Spec.computeWeights (transaction_count md)
      (base_model_weight md, personal_model_weight md).
Proof.
  unfold PersonalizedExpensePredictor.blend_weights, Spec.computeWeights.
  cbv zeta.
  destruct (Nat.ltb_spec 100 (transaction_count md));
    destruct (Nat.ltb_spec 50 (transaction_count md));
    destruct (Nat.ltb_spec 20 (transaction_count md));
  repeat case_decide; first [reflexivity | lia].
Qed.

Lemma train_model_success fit self now epochs validation_split w self' w' :
  PersonalizedExpensePredictor.train_model fit self now epochs validation_split w
    = (true, self', w') →
  ∃ model history,
    PersonalizedExpensePredictor.user_id self'
      = PersonalizedExpensePredictor.user_id self
    ∧ PersonalizedExpensePredictor.metadata self'
      = {| created_at := created_at (PersonalizedExpensePredictor.metadata self);
           last_trained := Some now;
           training_count :=
             S (training_count (PersonalizedExpensePredictor.metadata self));
           transaction_count :=
             transaction_count (PersonalizedExpensePredictor.metadata self);
           base_model_weight :=
             (PersonalizedExpensePredictor.blend_weights
                (PersonalizedExpensePredictor.metadata self)).1;
           personal_model_weight :=
             (PersonalizedExpensePredictor.blend_weights
                (PersonalizedExpensePredictor.metadata self)).2;
           performance_metrics := (val_mae history, val_loss history) |}
    ∧ w' = PersonalizedExpensePredictor._save_metadata
             (PersonalizedExpensePredictor.user_id self)
             (PersonalizedExpensePredictor.metadata self')
             (write_dir w (PersonalizedExpensePredictor.user_id self)
                (set_model_path
                   (user_dir_of w (PersonalizedExpensePredictor.user_id self))
                   (Stored model))).
Proof.
  unfold PersonalizedExpensePredictor.train_model. intros H.
  destruct (prepare_training_data _) as [e|[X y]]; [congruence|].
  destruct (bool_decide _); [congruence|].
  match type of H with
  | match ?m with _ => _ end = _ => destruct m as [[model history]|]
  end; [|congruence].
  injection H as <- <-. exists model, history. done.
Qed.

(** C7: after a successful training run the blend weights in the metadata are
    those of the table of section 4.4 applied to the transaction count:
    above 100 (0.3, 0.7); 51-100 (0.5, 0.5); 21-50 (0.7, 0.3); at most 20 the
    prior weights, unchanged.  From the default metadata this gives
    (0.3, 0.7) at 101, (0.5, 0.5) at 75, (0.7, 0.3) at 30 and (1.0, 0.0) at 5,
    and the personal weight never decreases as the count grows. *)
Theorem weights_after_training
    fit self now epochs validation_split w self' w' :
  PersonalizedExpensePredictor.train_model fit self now epochs validation_split w
    = (true, self', w') →
  let md := PersonalizedExpensePredictor.metadata self in
  let md' := PersonalizedExpensePredictor.metadata self' in
  let n := transaction_count md in
  (base_model_weight md', personal_model_weight md')
    = Spec.computeWeights n (base_model_weight md, personal_model_weight md)
  ∧ ((100 < n)%nat →
     (base_model_weight md', personal_model_weight md') = (lit 0.3, lit 0.7))
  ∧ ((51 ≤ n ≤ 100)%nat →
     (base_model_weight md', personal_model_weight md') = (lit 0.5, lit 0.5))
  ∧ ((21 ≤ n ≤ 50)%nat →
     (base_model_weight md', personal_model_weight md') = (lit 0.7, lit 0.3))
  ∧ ((n ≤ 20)%nat →
     (base_model_weight md', personal_model_weight md')
       = (base_model_weight md, personal_model_weight md))
  ∧ (∀ t0 : Z,
       let at_count k :=
         PersonalizedExpensePredictor.blend_weights
           (with_transaction_count k
              (PersonalizedExpensePredictor.default_metadata t0)) in
       (∀ k, at_count k = Spec.computeWeights k Spec.defaultWeights)
       ∧ at_count 101%nat = (lit 0.3, lit 0.7)
       ∧ at_count 75%nat = (lit 0.5, lit 0.5)
       ∧ at_count 30%nat = (lit 0.7, lit 0.3)
       ∧ at_count 5%nat = (lit 1.0, lit 0.0)
       ∧ ∀ j k : nat, (j ≤ k)%nat →
           (at_count j).2 ≤ (at_count k).2 ∧ (at_count k).1 ≤ (at_count j).1).
Proof.
  intros H. cbv zeta.
  destruct (train_model_success _ _ _ _ _ _ _ _ H) as (model & history & _ & Hmd & _).
  rewrite Hmd; simpl. rewrite <- surjective_pairing, blend_weights_spec.
  generalize (base_model_weight (PersonalizedExpensePredictor.metadata self),
              personal_model_weight (PersonalizedExpensePredictor.metadata self)).
  generalize (transaction_count (PersonalizedExpensePredictor.metadata self)).
  intros n prior.
  split; [reflexivity|].
  unfold Spec.computeWeights.
  split; [intros; repeat case_decide; first [reflexivity | lia]|].
  split; [intros; repeat case_decide; first [reflexivity | lia]|].
  split; [intros; repeat case_decide; first [reflexivity | lia]|].
  split; [intros; repeat case_decide; first [reflexivity | lia]|].
  intros t0.
  split; [intros k; apply blend_weights_spec|].
  split; [qc_eval|]. split; [qc_eval|]. split; [qc_eval|]. split; [qc_eval|].
  intros j k Hjk.
  unfold PersonalizedExpensePredictor.blend_weights; simpl.
  destruct (Nat.ltb_spec 100 j); destruct (Nat.ltb_spec 50 j);
    destruct (Nat.ltb_spec 20 j);
    destruct (Nat.ltb_spec 100 k); destruct (Nat.ltb_spec 50 k);
    destruct (Nat.ltb_spec 20 k); simpl;
    first [lia | split; qc_eval].
Qed.

(** ** The files of a user under the operations *)

Lemma user_dir_of_write_dir_eq w u d : user_dir_of (write_dir w u d) u = d.
Proof. unfold user_dir_of, write_dir; simpl. by rewrite lookup_insert_eq. Qed.

Lemma user_dir_of_write_dir_ne w u u' d :
  u ≠ u' → user_dir_of (write_dir w u d) u' = user_dir_of w u'.
Proof. intros. unfold user_dir_of, write_dir; simpl. by rewrite lookup_insert_ne. Qed.

Lemma user_dir_of_mkdir w u u' :
  user_dir_of (write_dir w u (user_dir_of w u)) u' = user_dir_of w u'.
Proof.
  destruct (decide (u = u')) as [->|Hne].
  - apply user_dir_of_write_dir_eq.
  - by apply user_dir_of_write_dir_ne.
Qed.

Lemma keeps_scaler_refl uid w : keeps_scaler uid w w.
Proof. by split. Qed.

Lemma keeps_scaler_trans uid w1 w2 w3 :
  keeps_scaler uid w1 w2 → keeps_scaler uid w2 w3 → keeps_scaler uid w1 w3.
Proof. intros [H1 H1'] [H2 H2']. split; [congruence | auto]. Qed.

Lemma keeps_scaler_mkdir uid u w :
  keeps_scaler uid w (write_dir w u (user_dir_of w u)).
Proof. unfold keeps_scaler. by rewrite user_dir_of_mkdir. Qed.

Lemma keeps_scaler_save_metadata uid u md w :
  keeps_scaler uid w (PersonalizedExpensePredictor._save_metadata u md w).
Proof.
  unfold keeps_scaler, PersonalizedExpensePredictor._save_metadata.
  destruct (decide (u = uid)) as [->|Hne].
  - by rewrite user_dir_of_write_dir_eq.
  - by rewrite user_dir_of_write_dir_ne.
Qed.

Lemma keeps_scaler_load_metadata uid u now w md w' :
  PersonalizedExpensePredictor._load_metadata u now w = Val (md, w') →
  keeps_scaler uid w w'.
Proof.
  unfold PersonalizedExpensePredictor._load_metadata.
  destruct (path_exists _).
  - destruct (load _); simpl; [|discriminate].
    intros [= <- <-]. apply keeps_scaler_refl.
  - intros [= <- <-]. apply keeps_scaler_save_metadata.
Qed.

Lemma keeps_scaler_set_model uid u w f :
  path_exists f = true →
  keeps_scaler uid w (write_dir w u (set_model_path (user_dir_of w u) f)).
Proof.
  intros Hf. unfold keeps_scaler.
  destruct (decide (u = uid)) as [->|Hne].
  - by rewrite user_dir_of_write_dir_eq.
  - by rewrite user_dir_of_write_dir_ne.
Qed.

Lemma keeps_scaler_set_data uid u w f :
  keeps_scaler uid w (write_dir w u (set_data_path (user_dir_of w u) f)).
Proof.
  unfold keeps_scaler.
  destruct (decide (u = uid)) as [->|Hne].
  - by rewrite user_dir_of_write_dir_eq.
  - by rewrite user_dir_of_write_dir_ne.
Qed.

(** Copying the base artifacts into another user's directory, or into a
    directory that lacks the scaler, leaves an existing scaler alone. *)
Lemma keeps_scaler_initialize uid u w :
  u ≠ uid ∨ scaler_path (user_dir_of w uid) = Absent →
  path_exists (scaler_path (user_dir_of w uid)) = true →
  keeps_scaler uid w (PersonalizedExpensePredictor._initialize_from_base_model u w).2.
Proof.
  intros [Hne|Habs] Hex; [|by rewrite Habs in Hex].
  unfold PersonalizedExpensePredictor._initialize_from_base_model.
  destruct (negb _ || negb _); [apply keeps_scaler_refl|].
  destruct (load (base_model_path w)); simpl; [|apply keeps_scaler_refl].
  destruct (load (base_scaler_path w)); simpl.
  - unfold keeps_scaler. by rewrite !user_dir_of_write_dir_ne.
  - unfold keeps_scaler. by rewrite !user_dir_of_write_dir_ne.
Qed.

Lemma keeps_scaler_init uid u now w self w' :
  bootstrapped w uid →
  PersonalizedExpensePredictor.init u now w = Val (self, w') →
  keeps_scaler uid w w' ∧ PersonalizedExpensePredictor.user_id self = u.
Proof.
  intros [Hm Hs]. unfold PersonalizedExpensePredictor.init.
  destruct (PersonalizedExpensePredictor._load_metadata _ _ _)
    as [[md w1]|] eqn:Hload; simpl; [|discriminate].
  apply (keeps_scaler_load_metadata uid) in Hload.
  pose proof (keeps_scaler_trans uid _ _ _ (keeps_scaler_mkdir uid u w) Hload)
    as [Hk1 Hk2].
  destruct (negb (path_exists (model_path (user_dir_of w1 u)))
            || negb (path_exists (scaler_path (user_dir_of w1 u)))) eqn:Hinit.
  - intros [= <- <-]. split; [|done].
    apply keeps_scaler_trans with w1; [by split|].
    apply keeps_scaler_initialize; [|congruence].
    left. intros ->. rewrite Hk1, Hs, (Hk2 Hm) in Hinit. discriminate.
  - intros [= <- <-]. by split.
Qed.

Lemma keeps_scaler_add uid self df w :
  keeps_scaler uid w (PersonalizedExpensePredictor.add_transaction_data self df w).2.
Proof.
  unfold PersonalizedExpensePredictor.add_transaction_data; simpl.
  eapply keeps_scaler_trans; [apply keeps_scaler_set_data|].
  apply keeps_scaler_save_metadata.
Qed.

Lemma keeps_scaler_train fit uid self now epochs validation_split w :
  keeps_scaler uid w
    (PersonalizedExpensePredictor.train_model fit self now epochs validation_split w).2.
Proof.
  unfold PersonalizedExpensePredictor.train_model.
  destruct (prepare_training_data _) as [e|[X y]]; [apply keeps_scaler_refl|].
  destruct (bool_decide _); [apply keeps_scaler_refl|].
  match goal with
  | |- context [match ?m with _ => _ end] => destruct m as [[model history]|]
  end; [|apply keeps_scaler_refl].
  simpl. eapply keeps_scaler_trans; [|apply keeps_scaler_save_metadata].
  by apply keeps_scaler_set_model.
Qed.

Lemma keeps_scaler_call fit uid c s :
  keeps_scaler uid s.2 (do_call fit c s).2.
Proof.
  destruct c; simpl.
  - apply keeps_scaler_add.
  - apply keeps_scaler_train.
  - apply keeps_scaler_refl.
Qed.

Lemma keeps_scaler_calls fit uid calls s :
  keeps_scaler uid s.2 (foldl (λ s c, do_call fit c s) s calls).2.
Proof.
  revert s. induction calls as [|c calls IH]; intros s; simpl.
  - apply keeps_scaler_refl.
  - eapply keeps_scaler_trans; [apply (keeps_scaler_call fit uid c)|apply IH].
Qed.

Lemma keeps_scaler_step fit uid w e :
  bootstrapped w uid → keeps_scaler uid w (step fit w e).
Proof.
  intros Hb. destruct e as [u now calls|m s]; simpl.
  - destruct (PersonalizedExpensePredictor.init u now w) as [[self w']|] eqn:Hi.
    + apply (keeps_scaler_init uid) in Hi as [Hk _]; [|done].
      eapply keeps_scaler_trans; [exact Hk|].
      apply (keeps_scaler_calls fit uid calls (self, w')).
    + apply keeps_scaler_mkdir.
  - by split.
Qed.

Lemma keeps_scaler_bootstrapped uid w w' :
  bootstrapped w uid → keeps_scaler uid w w' → bootstrapped w' uid.
Proof. intros [Hm Hs] [H1 H2]. split; [auto | congruence]. Qed.

(** Once a user has both artifacts, no run changes the scaler file. *)
Lemma keeps_scaler_run fit uid events w :
  bootstrapped w uid → keeps_scaler uid w (run fit events w).
Proof.
  unfold run. revert w. induction events as [|e events IH]; intros w Hb; simpl.
  - apply keeps_scaler_refl.
  - pose proof (keeps_scaler_step fit uid w e Hb) as Hk.
    eapply keeps_scaler_trans; [exact Hk|].
    apply IH. by eapply keeps_scaler_bootstrapped.
Qed.

(** The first reference to a user copies both base artifacts. *)
Lemma init_bootstraps uid now w bm bs :
  user_models w !! uid = None →
  base_model_path w = Stored bm →
  base_scaler_path w = Stored bs →
  ∃ self w',
    PersonalizedExpensePredictor.init uid now w = Val (self, w')
    ∧ PersonalizedExpensePredictor.user_id self = uid
    ∧ PersonalizedExpensePredictor.metadata self
      = PersonalizedExpensePredictor.default_metadata now
    ∧ base_model_path w' = Stored bm
    ∧ base_scaler_path w' = Stored bs
    ∧ user_dir_of w' uid
      = {| model_path := Stored bm; scaler_path := Stored bs; data_path := None;
           metadata_path :=
             Stored (PersonalizedExpensePredictor.default_metadata now) |}.
Proof.
  intros Hnone Hbm Hbs.
  assert (Hd : user_dir_of w uid = empty_dir)
    by (unfold user_dir_of; by rewrite Hnone).
  unfold PersonalizedExpensePredictor.init,
    PersonalizedExpensePredictor._load_metadata,
    PersonalizedExpensePredictor._save_metadata,
    PersonalizedExpensePredictor._initialize_from_base_model.
  rewrite !Hd. rewrite !user_dir_of_write_dir_eq. simpl.
  rewrite !user_dir_of_write_dir_eq. simpl.
  rewrite Hbm, Hbs. simpl.
  rewrite !user_dir_of_write_dir_eq. simpl.
  eexists _, _. split; [reflexivity|]. simpl.
  rewrite !user_dir_of_write_dir_eq. done.
Qed.

(** A successful training run, step by step: the scaler read from the user's
    directory is applied, as it is, to the features; only the regressor file
    and the metadata file are written. *)
Lemma train_model_steps fit self now epochs validation_split w self' w' :
  PersonalizedExpensePredictor.train_model fit self now epochs validation_split w
    = (true, self', w') →
  let uid := PersonalizedExpensePredictor.user_id self in
  ∃ model scaler X y X_scaled model' history,
    model_path (user_dir_of w uid) = Stored model
    ∧ scaler_path (user_dir_of w uid) = Stored scaler
    ∧ prepare_training_data (data_path (user_dir_of w uid)) = inr (X, y)
    ∧ transform scaler X = Val X_scaled
    ∧ fit model X_scaled y epochs (32 `min` length X)%nat validation_split
      = Val (model', history)
    ∧ user_dir_of w' uid
      = {| model_path := Stored model';
           scaler_path := Stored scaler;
           data_path := data_path (user_dir_of w uid);
           metadata_path := Stored (PersonalizedExpensePredictor.metadata self') |}.
Proof.
  intros H; cbv zeta. revert H.
  unfold PersonalizedExpensePredictor.train_model. intros H.
  destruct (prepare_training_data _) as [e|[X y]] eqn:Hp; [congruence|].
  destruct (bool_decide _); [congruence|].
  destruct (model_path _) as [| |model] eqn:Hm; simpl in H; try congruence.
  destruct (scaler_path _) as [| |scaler] eqn:Hs; simpl in H; try congruence.
  destruct (transform scaler X) as [X_scaled|] eqn:Ht; simpl in H; [|congruence].
  destruct (fit _ _ _ _ _ _) as [[model' history]|] eqn:Hf; [|congruence].
  injection H as <- <-.
  exists model, scaler, X, y, X_scaled, model', history.
  repeat split; try done.
  unfold PersonalizedExpensePredictor._save_metadata; simpl.
  rewrite !user_dir_of_write_dir_eq. unfold set_metadata_path, set_model_path; simpl.
  by rewrite Hs.
Qed.

Lemma keeps_scaler_consistent uid w w' :
  artifacts_consistent w uid → keeps_scaler uid w w' → artifacts_consistent w' uid.
Proof. intros Hc [Hs Hm] Hex. rewrite Hs in Hex. auto. Qed.

Lemma initialize_consistent uid u w :
  artifacts_consistent w uid →
  artifacts_consistent
    (PersonalizedExpensePredictor._initialize_from_base_model u w).2 uid.
Proof.
  intros Hc. unfold PersonalizedExpensePredictor._initialize_from_base_model.
  destruct (negb _ || negb _); [done|].
  destruct (load (base_model_path w)); simpl; [|done].
  destruct (load (base_scaler_path w)); simpl; unfold artifacts_consistent;
    (destruct (decide (u = uid)) as [->|Hne];
     [ by rewrite !user_dir_of_write_dir_eq
     | by rewrite !user_dir_of_write_dir_ne ]).
Qed.

Lemma init_consistent uid u now w self w' :
  artifacts_consistent w uid →
  PersonalizedExpensePredictor.init u now w = Val (self, w') →
  artifacts_consistent w' uid.
Proof.
  intros Hc. unfold PersonalizedExpensePredictor.init.
  destruct (PersonalizedExpensePredictor._load_metadata _ _ _)
    as [[md w1]|] eqn:Hload; simpl; [|discriminate].
  apply (keeps_scaler_load_metadata uid) in Hload.
  assert (Hc1 : artifacts_consistent w1 uid).
  { eapply keeps_scaler_consistent; [exact Hc|].
    eapply keeps_scaler_trans; [apply (keeps_scaler_mkdir uid u)|exact Hload]. }
  destruct (negb _ || negb _); intros [= <- <-]; [|done].
  by apply initialize_consistent.
Qed.

Lemma step_consistent fit uid w e :
  artifacts_consistent w uid → artifacts_consistent (step fit w e) uid.
Proof.
  intros Hc. destruct e as [u now calls|m s]; simpl; [|done].
  destruct (PersonalizedExpensePredictor.init u now w) as [[self w']|] eqn:Hi.
  - eapply keeps_scaler_consistent;
      [by eapply init_consistent|apply (keeps_scaler_calls fit uid calls (self, w'))].
  - eapply keeps_scaler_consistent; [exact Hc|apply keeps_scaler_mkdir].
Qed.

Lemma run_consistent fit uid events w :
  artifacts_consistent w uid → artifacts_consistent (run fit events w) uid.
Proof.
  unfold run. revert w. induction events as [|e events IH]; intros w Hc; simpl.
  - done.
  - apply IH. by apply step_consistent.
Qed.

(** C9: the scaler of a user is the base scaler copied at bootstrap, and no
    later operation refits or overwrites it.  For a user never referenced
    before: if the base artifacts are stored, the first session leaves the
    base scaler of that moment in the user's scaler file; after any run
    (sessions of any user with any method calls, base artifacts replaced in
    between), a scaler file that is there stays identical under any further
    run; and a successful training run applies the stored scaler to the
    features and writes only the regressor file and the metadata file. *)
Theorem scaler_copied_once_never_overwritten
    fit (w : World) (uid : string) (now : Z) (calls : list call)
    (events later : list event) :
  user_models w !! uid = None →
  (∀ bm bs,
     base_model_path w = Stored bm →
     base_scaler_path w = Stored bs →
     scaler_path (user_dir_of (step fit w (Session uid now calls)) uid) = Stored bs)
  ∧ (path_exists (scaler_path (user_dir_of (run fit events w) uid)) = true →
     scaler_path (user_dir_of (run fit later (run fit events w)) uid)
     = scaler_path (user_dir_of (run fit events w) uid))
  ∧ (∀ w0 self t epochs validation_split self' w',
       PersonalizedExpensePredictor.train_model fit self t epochs validation_split w0
         = (true, self', w') →
       PersonalizedExpensePredictor.user_id self = uid →
       ∃ scaler X y X_scaled model model' history,
         scaler_path (user_dir_of w0 uid) = Stored scaler
         ∧ model_path (user_dir_of w0 uid) = Stored model
         ∧ prepare_training_data (data_path (user_dir_of w0 uid)) = inr (X, y)
         ∧ transform scaler X = Val X_scaled
         ∧ fit model X_scaled y epochs (32 `min` length X)%nat validation_split
           = Val (model', history)
         ∧ scaler_path (user_dir_of w' uid) = Stored scaler
         ∧ model_path (user_dir_of w' uid) = Stored model'
         ∧ data_path (user_dir_of w' uid) = data_path (user_dir_of w0 uid)).
Proof.
  intros Hnone. split; [|split].
  - intros bm bs Hbm Hbs.
    destruct (init_bootstraps uid now w bm bs Hnone Hbm Hbs)
      as (self & w' & Hinit & _ & _ & _ & _ & Hdir).
    simpl. rewrite Hinit.
    destruct (keeps_scaler_calls fit uid calls (self, w')) as [-> _].
    simpl. by rewrite Hdir.
  - intros Hex.
    assert (Hc : artifacts_consistent (run fit events w) uid).
    { apply run_consistent. unfold artifacts_consistent, user_dir_of.
      by rewrite Hnone. }
    apply keeps_scaler_run. split; [by apply Hc|done].
  - intros w0 self0 t epochs vs self' w2 Htrain Huid.
    destruct (train_model_steps _ _ _ _ _ _ _ _ Htrain)
      as (model & scaler & X & y & X_scaled & model' & history
          & Hm & Hs & Hp & Ht & Hf & Hd).
    rewrite Huid in *.
    exists scaler, X, y, X_scaled, model, model', history.
    rewrite Hd. done.
Qed.

(** ** Concrete scenarios *)

Lemma scaler_copied_once_never_overwritten_witness :
  scaler_path
    (user_dir_of (step mean_fit demo_world (Session "u1" 0 demo_calls)) "u1")
  = Stored identity_scaler
  ∧ scaler_path
      (user_dir_of
         (run mean_fit demo_events
            (run mean_fit [Session "u1" 0 demo_calls] demo_world)) "u1")
    = scaler_path
        (user_dir_of (run mean_fit [Session "u1" 0 demo_calls] demo_world) "u1").
Proof.
  destruct (scaler_copied_once_never_overwritten
              mean_fit demo_world "u1" 0 demo_calls
              [Session "u1" 0 demo_calls] demo_events)
    as (Hcopy & Hkeep & _).
  - reflexivity.
  - split.
    + apply (Hcopy (constant_model (lit 4200)) identity_scaler); reflexivity.
    + apply Hkeep. vm_compute. reflexivity.
Defined.

Lemma weights_after_training_witness :
  let r := PersonalizedExpensePredictor.train_model
             mean_fit demo_loaded.1 86400 100 (lit 0.2) demo_loaded.2 in
  transaction_count (PersonalizedExpensePredictor.metadata demo_loaded.1) = 24%nat
  ∧ r.1.1 = true
  ∧ (base_model_weight (PersonalizedExpensePredictor.metadata r.1.2),
     personal_model_weight (PersonalizedExpensePredictor.metadata r.1.2))
    = (lit 0.7, lit 0.3).
Proof.
  intros r.
  assert (Hn : transaction_count (PersonalizedExpensePredictor.metadata demo_loaded.1)
               = 24%nat) by (vm_compute; reflexivity).
  assert (Hok : r.1.1 = true) by (vm_compute; reflexivity).
  split; [exact Hn|]. split; [exact Hok|].
  destruct (weights_after_training mean_fit demo_loaded.1 86400 100 (lit 0.2)
              demo_loaded.2 r.1.2 r.2) as (_ & _ & _ & H & _).
  - subst r. destruct (PersonalizedExpensePredictor.train_model _ _ _ _ _ _)
      as [[b s] w]. simpl in *. by rewrite Hok.
  - apply H. rewrite Hn. lia.
Defined.

(** ** The personalized [predict] *)

(** Decide comparisons of literals inside a goal. *)
Ltac qc_refute H :=
  vm_compute in H; first [discriminate H | exfalso; apply H; reflexivity].

Ltac qc_decide :=
  repeat match goal with
  | |- context [decide (?a < ?b)%Qc] =>
    first [ rewrite (decide_True (P := (a < b)%Qc)) by qc_eval
          | rewrite (decide_False (P := (a < b)%Qc))
              by (let H := fresh in intros H; qc_refute H) ]
  | |- context [decide (?a ≤ ?b)%Qc] =>
    first [ rewrite (decide_True (P := (a ≤ b)%Qc)) by qc_eval
          | rewrite (decide_False (P := (a ≤ b)%Qc))
              by (let H := fresh in intros H; qc_refute H) ]
  end.

(** [predict] returns [None] exactly when the personalized path raises and
    the base files are not both there. *)
Lemma predict_None_iff self income expenses month savings w :
  PersonalizedExpensePredictor.predict self income expenses month savings w = PyNone
  ↔ (∃ e, PersonalizedExpensePredictor.predict_personalized
            self income expenses month savings w = Raise e)
    ∧ path_exists (base_model_path w) && path_exists (base_scaler_path w) = false.
Proof.
  unfold PersonalizedExpensePredictor.predict,
    PersonalizedExpensePredictor.predict_fallback.
  destruct (PersonalizedExpensePredictor.predict_personalized _ _ _ _ _ _) as [x|e].
  - split; [discriminate|]. intros [[e He] _]. discriminate.
  - destruct (path_exists (base_model_path w) && path_exists (base_scaler_path w)).
    + split; [|intros [_ H]; discriminate].
      destruct (load (base_model_path w)); simpl; [|discriminate].
      destruct (load (base_scaler_path w)); simpl; [|discriminate].
      destruct (_ (Features _ _ _ _)); simpl; [|discriminate].
      destruct (_ _); simpl; discriminate.
    + split; [eauto|done].
Qed.

(** With both base files in place [predict] returns a float, by one of the
    three tiers. *)
Lemma predict_float_when_base_present self income expenses month savings w :
  path_exists (base_model_path w) && path_exists (base_scaler_path w) = true →
  ∃ x, PersonalizedExpensePredictor.predict self income expenses month savings w
       = PyFloat x.
Proof.
  intros Hb.
  destruct (PersonalizedExpensePredictor.predict self income expenses month savings w)
    as [x|] eqn:Hp; [eauto|].
  apply predict_None_iff in Hp as [_ Hp]. congruence.
Qed.

Lemma zero_expenses_bounds :
  Spec.computeBounds 0 11 (lit 50000) = (lit 500, 0).
Proof. qc_eval. Qed.

Lemma substituted_expenses_bounds :
  Spec.computeBounds (lit 5000) 11 (lit 50000) = (lit 4000, lit 6500).
Proof. qc_eval. Qed.

Lemma clampPrediction_zero_expenses raw :
  Spec.clampPrediction raw 0 11 (lit 50000) = 0.
Proof.
  unfold Spec.clampPrediction. rewrite zero_expenses_bounds.
  apply clampInto_inverted. qc_eval.
Qed.

(** [predict] on zero expenses in the festival season, whatever the user's
    directory holds, when the base artifacts are stored. *)
Lemma predict_zero_expenses self w bm bs savings :
  base_model_path w = Stored bm →
  base_scaler_path w = Stored bs →
  PersonalizedExpensePredictor.predict self (lit 50000) 0 11 savings w = PyFloat 0.
Proof.
  intros Hbm Hbs.
  unfold PersonalizedExpensePredictor.predict.
  destruct (PersonalizedExpensePredictor.predict_personalized _ _ _ _ _ _)
    as [x|e] eqn:Hp.
  - f_equal. revert Hp.
    unfold PersonalizedExpensePredictor.predict_personalized.
    destruct (load (model_path _)) as [pm|]; simpl; [|discriminate].
    destruct (load (scaler_path _)) as [ps|]; simpl; [|discriminate].
    destruct (ps _) as [scaled|]; simpl; [|discriminate].
    destruct (pm _) as [p|]; simpl; [|discriminate].
    rewrite Hbm, Hbs; simpl.
    case_decide.
    + destruct (bs _) as [bscaled|]; simpl; [|discriminate].
      destruct (bm _) as [bp|]; simpl; [|discriminate].
      intros [= <-]. rewrite personal_postprocess_spec.
      apply clampPrediction_zero_expenses.
    + simpl. intros [= <-]. rewrite personal_postprocess_spec.
      apply clampPrediction_zero_expenses.
  - unfold PersonalizedExpensePredictor.predict_fallback.
    rewrite Hbm, Hbs; simpl.
    destruct (bs _) as [bscaled|]; simpl.
    + destruct (bm _) as [bp|]; simpl.
      * rewrite fallback_postprocess_spec. by rewrite clampPrediction_zero_expenses.
      * by rewrite Qcmult_0_l.
    + by rewrite Qcmult_0_l.
Qed.

(** C1 (the code departs from it): with no base artifacts on disk and a user
    never seen before, the personalized path raises, the handler's [if] is
    not taken, and [predict] returns [None], which the script prints while
    reporting success; no float and no heuristic [expenses*1.05]. *)
Theorem predict_returns_None_without_base_artifacts (now : Z) :
  (personalized_predict "new-user" now (lit 50000) (lit 4000) 5 (lit 10000)
     empty_world).1
  = (Some PyNone, true).
Proof. reflexivity. Qed.

(** C2 (the code departs from it): the personalized [predict] performs no
    validation.  For a new user with stored base artifacts and the
    observation (50000, 0, 11, 10000) it computes its bounds from the
    unsubstituted expenses 0, namely (500, 0), and returns 0, where the
    substituted expenses 5000 would give the bounds (4000, 6500); and with
    income -5 and month 13 it still returns a float instead of failing. *)
Theorem personalized_predict_skips_validation
    (bm : Regressor) (bs : Scaler) (now : Z) :
  (personalized_predict "new-user" now (lit 50000) 0 11 (lit 10000)
     (base_only bm bs)).1
  = (Some (PyFloat 0), true)
  ∧ Personalized_bounds.bounds 0 11 (lit 50000) = (lit 500, 0)
  ∧ Personalized_bounds.bounds (lit 5000) 11 (lit 50000) = (lit 4000, lit 6500)
  ∧ ∃ x, (personalized_predict "new-user" now (lit (-5)) (lit 1000) 13 0
            (base_only bm bs)).1
         = (Some (PyFloat x), true).
Proof.
  destruct (init_bootstraps "new-user" now (base_only bm bs) bm bs)
    as (self & w' & Hinit & _ & _ & Hbm & Hbs & Hdir); [done..|].
  unfold personalized_predict. rewrite Hinit. simpl.
  split; [|split; [|split]].
  - f_equal. f_equal.
    by apply (predict_zero_expenses self w' bm bs).
  - rewrite personal_bounds_spec. apply zero_expenses_bounds.
  - rewrite personal_bounds_spec. apply substituted_expenses_bounds.
  - destruct (predict_float_when_base_present self (lit (-5)) (lit 1000) 13 0 w')
      as [x Hx]; [by rewrite Hbm, Hbs|].
    exists x. by rewrite Hx.
Qed.

(** ** The fallback path against the base predictor *)

(** On an observation that passes the base predictor's validation unchanged,
    an unreadable user regressor makes [predict] return what the base
    predictor returns, whenever the base predictor returns. *)
Lemma fallback_agrees_on_validated_input
    self income expenses month savings w bm bs e r :
  0 < income → 0 < expenses → (1 ≤ month ≤ 12)%Z →
  load (model_path (user_dir_of w (PersonalizedExpensePredictor.user_id self)))
    = Raise e →
  base_model_path w = Stored bm →
  base_scaler_path w = Stored bs →
  ExpensePredictor.main w income expenses month savings = Some r →
  PersonalizedExpensePredictor.predict self income expenses month savings w
    = PyFloat r.
Proof.
  intros Hi He Hm Hload Hbm Hbs.
  unfold PersonalizedExpensePredictor.predict,
    PersonalizedExpensePredictor.predict_personalized,
    PersonalizedExpensePredictor.predict_fallback.
  rewrite Hload; simpl. rewrite Hbm, Hbs; simpl.
  unfold ExpensePredictor.main, ExpensePredictor.init,
    ExpensePredictor.predict, ExpensePredictor.predict_body.
  rewrite Hbm, Hbs; simpl.
  rewrite decide_False by (intros Hc; qc_order).
  rewrite decide_False by (intros Hc; qc_order).
  rewrite !bool_decide_eq_false_2 by lia. simpl.
  destruct (bs _) as [scaled|]; simpl; [|discriminate].
  destruct (bm _) as [raw|]; simpl; [|discriminate].
  intros [= <-].
  by rewrite fallback_postprocess_spec, base_postprocess_spec.
Qed.

(** C8 (the code departs from it): with the user's regressor file corrupted
    and base artifacts that never raise, on (50000, 0, 11, 10000) the
    personalized [predict] returns 0 while the base predictor, which
    substitutes the expenses first, returns a value between 4000 and 6500. *)
Theorem fallback_differs_from_base_predictor
    (m : features → pyfloat) (s : features → features) (md : Metadata) :
  let bm : Regressor := λ x, Val (m x) in
  let bs : Scaler := λ x, Val (s x) in
  let w := write_dir (base_only bm bs) "u1"
             {| model_path := Corrupt; scaler_path := Stored bs;
                data_path := None; metadata_path := Stored md |} in
  let self := {| PersonalizedExpensePredictor.user_id := "u1";
                 PersonalizedExpensePredictor.metadata := md |} in
  PersonalizedExpensePredictor.predict self (lit 50000) 0 11 (lit 10000) w
    = PyFloat 0
  ∧ ∃ r, ExpensePredictor.main w (lit 50000) 0 11 (lit 10000) = Some r
         ∧ lit 4000 ≤ r ∧ r ≤ lit 6500.
Proof.
  intros bm bs w self. split.
  - by apply (predict_zero_expenses self w bm bs).
  - unfold ExpensePredictor.main, ExpensePredictor.init,
      ExpensePredictor.predict, ExpensePredictor.predict_body; simpl.
    qc_decide. simpl.
    assert (Hsub : py_max (lit 50000 * lit 0.1) (lit 1000) = lit 5000) by qc_eval.
    rewrite Hsub.
    eexists; split; [reflexivity|].
    rewrite base_postprocess_spec. unfold Spec.clampPrediction.
    rewrite substituted_expenses_bounds.
    pose proof (clampInto_between
                  (m (s (Features (lit 50000) (lit 5000) (Qc_of_Z 11) (lit 10000))))
                  (lit 4000) (lit 6500)) as [Hlo Hhi].
    replace (py_min (lit 4000) (lit 6500)) with (lit 4000) in Hlo by qc_eval.
    replace (py_max (lit 4000) (lit 6500)) with (lit 6500) in Hhi by qc_eval.
    done.
Qed.

(** ** The transaction aggregator *)

Global Instance ym_le_total : Total ym_le.
Proof. intros [a1 a2] [b1 b2]. unfold ym_le; simpl. lia. Qed.

Global Instance ym_le_trans : Transitive ym_le.
Proof. intros [a1 a2] [b1 b2] [c1 c2]. unfold ym_le; simpl. lia. Qed.

Global Instance ym_le_antisym : AntiSymm (=) ym_le.
Proof.
  intros [a1 a2] [b1 b2]. unfold ym_le; simpl. intros H1 H2.
  f_equal; lia.
Qed.

Global Instance index_le_total :
  Total (λ a b : year_month_key * Z, ym_le a.1 b.1).
Proof. intros a b. apply ym_le_total. Qed.

Global Instance row_le_total :
  Total (λ a b : monthly_row, ym_le (m_year_month a) (m_year_month b)).
Proof. intros a b. apply ym_le_total. Qed.

Global Instance row_le_trans :
  Transitive (λ a b : monthly_row, ym_le (m_year_month a) (m_year_month b)).
Proof. intros a b c. apply ym_le_trans. Qed.

Lemma with_months_well_dated data dated :
  with_months data = Some dated → Forall well_dated dated.
Proof.
  unfold with_months. rewrite mapM_Some.
  induction 1 as [|t r data dated Hr _ IH]; constructor; [|exact IH].
  destruct (date t) as [d|]; simpl in Hr; [|discriminate].
  injection Hr as <-. reflexivity.
Qed.

Lemma filter_none {A} (P : A → Prop) `{∀ x, Decision (P x)} (l : list A) :
  (∀ x, x ∈ l → ¬ P x) → filter P l = [].
Proof.
  induction l as [|x l IH]; intros Hl; [done|].
  rewrite filter_cons_False by (apply Hl; left).
  apply IH. intros y Hy. apply Hl. by right.
Qed.

Lemma filter_agree {A} (P Q : A → Prop) `{∀ x, Decision (P x)}
    `{∀ x, Decision (Q x)} (l : list A) :
  (∀ x, x ∈ l → P x ↔ Q x) → filter P l = filter Q l.
Proof.
  induction l as [|x l IH]; intros Hl; [done|].
  assert (Hx : P x ↔ Q x) by (apply Hl; left).
  assert (Hrest : filter P l = filter Q l)
    by (apply IH; intros y Hy; apply Hl; by right).
  destruct (decide (P x)) as [HP|HP].
  - rewrite (filter_cons_True P) by done.
    rewrite (filter_cons_True Q) by (by apply Hx). by rewrite Hrest.
  - rewrite (filter_cons_False P) by done.
    rewrite (filter_cons_False Q) by (by rewrite <- Hx). done.
Qed.

(** In a table with one row per key, the rows under one key. *)
Lemma filter_key_of_table {K V} `{EqDecision K} (F : K → V) (keys : list K) (k : K) :
  NoDup keys →
  filter (λ kv : K * V, kv.1 = k) ((λ k, (k, F k)) <$> keys)
  = if decide (k ∈ keys) then [(k, F k)] else [].
Proof.
  induction 1 as [|k' keys Hk' _ IH]; [done|].
  rewrite fmap_cons. destruct (decide (k' = k)) as [->|Hne].
  - rewrite filter_cons_True by done.
    rewrite decide_True by left.
    rewrite IH, decide_False by done. done.
  - rewrite filter_cons_False by done. rewrite IH.
    destruct (decide (k ∈ keys)) as [Hin|Hin].
    + rewrite decide_True by (by right). done.
    + rewrite decide_False; [done|].
      rewrite elem_of_cons. intros [Heq|Hin']; [by apply Hne | by apply Hin].
Qed.

Lemma Qc_div_one (x : pyfloat) : x / Qc_of_Z (Z.of_nat 1) = x.
Proof.
  replace (Qc_of_Z (Z.of_nat 1)) with (Q2Qc 1) by (apply Qc_is_canon; reflexivity).
  apply (right_id _ Qcdiv).
Qed.

(** A cell of the pivot table is the month's total of the column's type; a
    month without a transaction of that type gets the fill value. *)
Lemma pivot_cell_total (data : list dated) (ym : year_month_key) (column : string) :
  Forall well_dated data →
  pivot_cell (monthly_data data) (ym, ym.2) column = month_total data ym column
  ∧ (¬ month_has data ym column →
     pivot_cell (monthly_data data) (ym, ym.2) column = fill_value).
Proof.
  intros Hwd. unfold pivot_cell, monthly_data, month_total.
  rewrite (filter_key_of_table _ _ (ym, ym.2, column))
    by apply NoDup_remove_dups.
  assert (Hsame :
    filter (λ r, group_key r = (ym, ym.2, column)) data
    = filter (λ r, d_year_month r = ym ∧ d_type r = column) data).
  { apply filter_agree. intros r Hr. unfold group_key.
    rewrite Forall_forall in Hwd. specialize (Hwd r Hr). unfold well_dated in Hwd.
    split; [intros [= <- _ <-]; done|]. intros [<- <-]. by rewrite Hwd. }
  destruct (decide (_ ∈ remove_dups _)) as [Hin|Hin]; simpl.
  - rewrite Qcplus_0_r, Qc_div_one, Hsame. split; [done|].
    intros Hno. exfalso. apply Hno.
    rewrite elem_of_remove_dups, list_elem_of_fmap in Hin.
    destruct Hin as (r & Hk & Hr). unfold month_has. rewrite Exists_exists.
    exists r. unfold group_key in Hk.
    injection Hk as -> _ ->. done.
  - split; [|done]. rewrite filter_none; [done|].
    intros r Hr [Hy Ht]. apply Hin.
    rewrite elem_of_remove_dups, list_elem_of_fmap. exists r. split; [|done].
    unfold group_key. rewrite Forall_forall in Hwd.
    rewrite (Hwd r Hr), Hy, Ht. done.
Qed.

Lemma elem_of_monthly_data data kv :
  kv ∈ monthly_data data → ∃ r, r ∈ data ∧ kv.1 = group_key r.
Proof.
  unfold monthly_data. rewrite list_elem_of_fmap.
  intros (k & -> & Hk). rewrite elem_of_remove_dups, list_elem_of_fmap in Hk.
  destruct Hk as (r & -> & Hr). eauto.
Qed.

Lemma group_key_in_monthly_data data r :
  r ∈ data → ∃ v, (group_key r, v) ∈ monthly_data data.
Proof.
  intros Hr. eexists. unfold monthly_data. rewrite list_elem_of_fmap.
  exists (group_key r). split; [reflexivity|].
  rewrite elem_of_remove_dups. by apply list_elem_of_fmap_2.
Qed.

Lemma elem_of_monthly_index data i :
  i ∈ monthly_index data ↔ ∃ r, r ∈ data ∧ i = (d_year_month r, d_month r).
Proof.
  unfold monthly_index. rewrite elem_of_remove_dups, list_elem_of_fmap. split.
  - intros (kv & -> & Hkv). apply elem_of_monthly_data in Hkv as (r & Hr & ->).
    by exists r.
  - intros (r & Hr & ->). destruct (group_key_in_monthly_data data r Hr) as [v Hv].
    by exists (group_key r, v).
Qed.

Lemma elem_of_columns data column :
  column ∈ columns (pivot_table (monthly_data data)) ↔ log_has data column.
Proof.
  unfold pivot_table, log_has; simpl.
  rewrite elem_of_remove_dups, list_elem_of_fmap, Exists_exists. split.
  - intros (kv & -> & Hkv). apply elem_of_monthly_data in Hkv as (r & Hr & ->).
    by exists r.
  - intros (r & Hr & <-). destruct (group_key_in_monthly_data data r Hr) as [v Hv].
    by exists (group_key r, v).
Qed.

Lemma monthly_index_keys_NoDup data :
  Forall well_dated data → NoDup ((monthly_index data).*1).
Proof.
  intros Hwd. apply NoDup_fmap_2_strong; [|apply NoDup_remove_dups].
  rewrite Forall_forall in Hwd.
  intros x y Hx Hy Hxy.
  apply elem_of_monthly_index in Hx as (rx & Hrx & ->).
  apply elem_of_monthly_index in Hy as (ry & Hry & ->).
  simpl in Hxy. rewrite (Hwd rx Hrx), (Hwd ry Hry), Hxy. done.
Qed.

Lemma StronglySorted_strict {A} (R : relation A) (l : list A) :
  StronglySorted R l → NoDup l → StronglySorted (λ a b, R a b ∧ a ≠ b) l.
Proof.
  induction 1 as [|a l _ IH Ha]; intros Hnd; [constructor|].
  apply NoDup_cons in Hnd as [Hnotin Hnd].
  constructor; [by apply IH|].
  rewrite Forall_forall in Ha |- *. intros b Hb. split; [by apply Ha|].
  intros ->. done.
Qed.

Lemma unsorted_rows_keys data :
  m_year_month <$> unsorted_rows data
  ≡ₚ (monthly_index data).*1.
Proof.
  unfold unsorted_rows, pivot_table; simpl.
  rewrite <- !list_fmap_compose.
  rewrite (list_fmap_ext _ fst
             (merge_sort (λ a b : year_month_key * Z, ym_le a.1 b.1)
                (monthly_index data))) by done.
  apply fmap_Permutation, merge_sort_Permutation.
Qed.

Lemma unsorted_rows_of_log data row :
  Forall well_dated data → row ∈ unsorted_rows data → row_of_log data row.
Proof.
  intros Hwd. unfold unsorted_rows, pivot_table; simpl.
  rewrite <- list_fmap_compose, list_elem_of_fmap.
  intros (i & -> & Hi). rewrite merge_sort_Permutation in Hi.
  apply elem_of_monthly_index in Hi as (r & Hr & ->).
  pose proof Hwd as Hwd'. rewrite Forall_forall in Hwd'.
  unfold row_of_log, add_savings; simpl. rewrite (Hwd' r Hr).
  destruct (pivot_cell_total data (d_year_month r) "income" Hwd) as [Hi1 Hi2].
  destruct (pivot_cell_total data (d_year_month r) "expense" Hwd) as [He1 He2].
  rewrite Hi1, He1.
  split; [by exists r|]. split; [done|]. split; [done|]. split; [done|].
  split; [done|]. split.
  - intros Hno. rewrite <- Hi1. by apply Hi2.
  - intros Hno. rewrite <- He1. by apply He2.
Qed.

(** The sorted monthly table: when it is built, which month-keys it has, in
    which order, and what its rows hold. *)
Lemma monthly_table_rows data dated :
  with_months data = Some dated →
  (log_has dated "income" ∧ log_has dated "expense" →
   ∃ rows, monthly_table data = inr rows
     ∧ StronglySorted ym_lt (m_year_month <$> rows)
     ∧ (∀ ym, ym ∈ m_year_month <$> rows ↔ ∃ r, r ∈ dated ∧ d_year_month r = ym)
     ∧ Forall (row_of_log dated) rows)
  ∧ (¬ (log_has dated "income" ∧ log_has dated "expense") →
     monthly_table data = inl InsufficientDataTypes).
Proof.
  intros Hdated. pose proof (with_months_well_dated _ _ Hdated) as Hwd.
  unfold monthly_table. rewrite Hdated. split.
  - intros [Hinc Hexp].
    rewrite !bool_decide_eq_false_2
      by (intros Hc; apply Hc; by apply elem_of_columns).
    simpl. eexists; split; [reflexivity|].
    fold (unsorted_rows dated).
    assert (Hperm : sort_values (unsorted_rows dated) ≡ₚ unsorted_rows dated)
      by apply merge_sort_Permutation.
    assert (Hkeys : m_year_month <$> sort_values (unsorted_rows dated)
                    ≡ₚ (monthly_index dated).*1).
    { rewrite Hperm. apply unsorted_rows_keys. }
    split; [|split].
    + apply StronglySorted_strict.
      * apply (StronglySorted_fmap _
                 (λ a b, ym_le (m_year_month a) (m_year_month b))); [done|].
        apply StronglySorted_merge_sort; apply _.
      * rewrite Hkeys. by apply monthly_index_keys_NoDup.
    + intros ym. rewrite Hkeys, list_elem_of_fmap. split.
      * intros (i & -> & Hi). apply elem_of_monthly_index in Hi as (r & Hr & ->).
        by exists r.
      * intros (r & Hr & <-). exists (d_year_month r, d_month r).
        split; [done|]. apply elem_of_monthly_index. by exists r.
    + rewrite Forall_forall. intros row Hrow. rewrite Hperm in Hrow.
      by apply unsorted_rows_of_log.
  - intros Hno.
    destruct (decide ("income" ∈ columns (pivot_table (monthly_data dated))))
      as [Hinc|Hinc].
    + rewrite (bool_decide_eq_true_2 ("expense" ∉ _)); [by rewrite orb_true_r|].
      rewrite elem_of_columns in Hinc |- *. tauto.
    + by rewrite (bool_decide_eq_true_2 ("income" ∉ _)).
Qed.

Lemma length_training_pairs rows :
  length (training_pairs rows) = (length rows - 1)%nat.
Proof.
  unfold training_pairs. rewrite length_zip_with.
  destruct rows as [|row rows]; [done|].
  change (tail (row :: rows)) with rows. cbn [length]. lia.
Qed.

Lemma lookup_training_pairs rows i current next_month :
  rows !! i = Some current →
  rows !! S i = Some next_month →
  training_pairs rows !! i
  = Some (Features (m_income current) (m_expense current)
                   (Qc_of_Z (m_month current)) (m_savings current),
          m_expense next_month).
Proof.
  intros Hc Hn. unfold training_pairs.
  rewrite lookup_zip_with, lookup_tail, Hc, Hn. done.
Qed.

(** From the sorted monthly table to the result of [prepare_training_data]. *)
Lemma prepare_from_table data rows :
  monthly_table data = inr rows →
  ((length rows < 2)%nat →
   prepare_training_data (Some data) = inl InsufficientSequentialData)
  ∧ ((2 ≤ length rows)%nat →
     prepare_training_data (Some data)
     = inr ((training_pairs rows).*1, (training_pairs rows).*2)).
Proof.
  intros Ht. unfold prepare_training_data. rewrite Ht.
  pose proof (length_training_pairs rows) as Hlen.
  destruct (training_pairs rows) as [|p ps] eqn:Hp; simpl in *.
  - split; [done|]. lia.
  - split; [lia|]. done.
Qed.

Ltac by_evaluation :=
  match goal with
  | |- ?P => refine (proj1 (bool_decide_eq_true P) _); vm_compute; reflexivity
  end.

(** C3, counterexample: January has no expense transaction, yet the
    construction does not fail with InsufficientDataTypes and emits a pair
    whose features are January's, with the missing expense total taken
    as 0. *)
Lemma month_lacking_a_type_is_included :
  qualifying_months jan_without_expense_log = [(2024, 2)%Z]
  ∧ prepare_training_data (Some jan_without_expense_log)
    = inr ([Features (lit 1000) (lit 0) (lit 1) (lit 1000)], [lit 750])
  ∧ prepare_training_data (Some jan_without_expense_log)
    ≠ inl InsufficientDataTypes.
Proof.
  assert (H : prepare_training_data (Some jan_without_expense_log)
              = inr ([Features (lit 1000) (lit 0) (lit 1) (lit 1000)], [lit 750]))
    by by_evaluation.
  split; [by_evaluation|]. split; [exact H|]. by rewrite H.
Qed.

(** C3, as the code has it: InsufficientDataTypes is a check on the whole
    log, failing exactly when the log has no income transaction or no expense
    transaction at all; otherwise every month-key of the log is a row of the
    table, and a month without a transaction of one type has the fill value 0
    as that total. *)
Theorem data_types_check_is_on_the_whole_log
    (data : list transaction) (dated : list dated) :
  with_months data = Some dated →
  (prepare_training_data (Some data) = inl InsufficientDataTypes
   ↔ ¬ (log_has dated "income" ∧ log_has dated "expense"))
  ∧ ∀ rows, monthly_table data = inr rows →
      (∀ r, r ∈ dated → d_year_month r ∈ m_year_month <$> rows)
      ∧ Forall (λ row,
                  (¬ month_has dated (m_year_month row) "income"
                   → m_income row = fill_value)
                  ∧ (¬ month_has dated (m_year_month row) "expense"
                     → m_expense row = fill_value)) rows.
Proof.
  intros Hdated.
  destruct (monthly_table_rows data dated Hdated) as [Hboth Hless].
  split.
  - split.
    + intros Hfail Hhas. destruct (Hboth Hhas) as (rows & Ht & _).
      destruct (prepare_from_table data rows Ht) as [H1 H2].
      destruct (decide (length rows < 2)%nat) as [Hl|Hl].
      * rewrite (H1 Hl) in Hfail. discriminate.
      * rewrite H2 in Hfail by lia. discriminate.
    + intros Hno. unfold prepare_training_data. by rewrite (Hless Hno).
  - intros rows Ht.
    destruct (decide (log_has dated "income" ∧ log_has dated "expense"))
      as [Hhas|Hno]; [|rewrite (Hless Hno) in Ht; discriminate].
    destruct (Hboth Hhas) as (rows' & Ht' & _ & Hkeys & Hrows).
    rewrite Ht in Ht'. injection Ht' as <-.
    split.
    + intros r Hr. apply Hkeys. by exists r.
    + eapply Forall_impl; [exact Hrows|].
      intros row (_ & _ & _ & _ & _ & Hi & He). by split.
Qed.

Lemma data_types_check_is_on_the_whole_log_witness :
  prepare_training_data (Some jan_without_expense_log) ≠ inl InsufficientDataTypes.
Proof.
  destruct (data_types_check_is_on_the_whole_log
              jan_without_expense_log
              (default [] (with_months jan_without_expense_log)))
    as [[Hfail _] _].
  - reflexivity.
  - intros H. apply (Hfail H). split; by_evaluation.
Defined.

(** C6, counterexample: only January has both an income and an expense
    transaction, one qualifying month-key, yet the construction does not fail
    with InsufficientSequentialData: it pairs January with February, whose
    missing expense total is 0. *)
Lemma one_qualifying_month_still_yields_a_pair :
  qualifying_months feb_without_expense_log = [(2024, 1)%Z]
  ∧ prepare_training_data (Some feb_without_expense_log)
    = inr ([Features (lit 1000) (lit 800) (lit 1) (lit 200)], [lit 0])
  ∧ prepare_training_data (Some feb_without_expense_log)
    ≠ inl InsufficientSequentialData.
Proof.
  assert (H : prepare_training_data (Some feb_without_expense_log)
              = inr ([Features (lit 1000) (lit 800) (lit 1) (lit 200)], [lit 0]))
    by by_evaluation.
  split; [by_evaluation|]. split; [exact H|]. by rewrite H.
Qed.

(** C6, as the code has it: for a log with at least one income and one
    expense transaction, the month-keys of the log (every month with a
    transaction) are sorted chronologically; each row holds the month's
    income total, expense total (0 when the month has none), calendar month
    and savings = income - expense; row [i] gives the features and row [i+1]
    the target of pair [i]; with fewer than 2 month-keys the construction
    fails with InsufficientSequentialData.  January (income 1000, expense
    800) and February (income 1100, expense 750) give exactly one pair:
    features (1000, 800, 1, 200), target 750. *)
Theorem training_pairs_of_consecutive_months
    (data : list transaction) (dated : list dated) :
  with_months data = Some dated →
  log_has dated "income" →
  log_has dated "expense" →
  ∃ rows,
    monthly_table data = inr rows
    ∧ StronglySorted ym_lt (m_year_month <$> rows)
    ∧ (∀ ym, ym ∈ m_year_month <$> rows ↔ ∃ r, r ∈ dated ∧ d_year_month r = ym)
    ∧ Forall (row_of_log dated) rows
    ∧ ((length rows < 2)%nat →
       prepare_training_data (Some data) = inl InsufficientSequentialData)
    ∧ ((2 ≤ length rows)%nat →
       ∃ X y,
         prepare_training_data (Some data) = inr (X, y)
         ∧ length X = (length rows - 1)%nat
         ∧ length y = (length rows - 1)%nat
         ∧ ∀ i current next_month,
             rows !! i = Some current →
             rows !! S i = Some next_month →
             X !! i = Some (Features (m_income current) (m_expense current)
                                     (Qc_of_Z (m_month current))
                                     (m_savings current))
             ∧ y !! i = Some (m_expense next_month))
    ∧ prepare_training_data (Some jan_feb_log)
      = inr ([Features (lit 1000) (lit 800) (lit 1) (lit 200)], [lit 750]).
Proof.
  intros Hdated Hinc Hexp.
  destruct (monthly_table_rows data dated Hdated) as [Hboth _].
  destruct (Hboth (conj Hinc Hexp)) as (rows & Ht & Hsorted & Hkeys & Hrows).
  destruct (prepare_from_table data rows Ht) as [Hfew Hmany].
  exists rows. repeat (split; [done|]). split; [|by_evaluation].
  intros Hlen. eexists _, _. split; [by apply Hmany|].
  rewrite !length_fmap, length_training_pairs. repeat (split; [done|]).
  intros i current next_month Hc Hn.
  rewrite !list_lookup_fmap, (lookup_training_pairs rows i current next_month Hc Hn).
  done.
Qed.

Lemma training_pairs_of_consecutive_months_witness :
  ∃ rows,
    monthly_table jan_feb_log = inr rows
    ∧ m_year_month <$> rows = [(2024, 1)%Z; (2024, 2)%Z]
    ∧ StronglySorted ym_lt (m_year_month <$> rows).
Proof.
  destruct (training_pairs_of_consecutive_months
              jan_feb_log (default [] (with_months jan_feb_log)))
    as (rows & Ht & Hsorted & _).
  - reflexivity.
  - by_evaluation.
  - by_evaluation.
  - exists rows. split; [exact Ht|]. split; [|exact Hsorted].
    assert (Hrows : (m_year_month <$> match monthly_table jan_feb_log with
                                      | inr rows => rows | inl _ => [] end)
                    = [(2024, 1)%Z; (2024, 2)%Z]) by (vm_compute; reflexivity).
    by rewrite Ht in Hrows.
Defined.

(** * Further properties of the code *)

(** ** The transaction log under [add_transaction_data] *)

Lemma same_elsewhere_refl u w : same_elsewhere u w w.
Proof. by repeat split. Qed.

Lemma same_elsewhere_trans u w1 w2 w3 :
  same_elsewhere u w1 w2 → same_elsewhere u w2 w3 → same_elsewhere u w1 w3.
Proof.
  intros (H1 & H2 & H3) (K1 & K2 & K3).
  split; [congruence|]. split; [congruence|].
  intros uid Hne. rewrite K3, H3; done.
Qed.

Lemma same_elsewhere_write_dir u w d : same_elsewhere u w (write_dir w u d).
Proof.
  split; [done|]. split; [done|].
  intros uid Hne. by apply user_dir_of_write_dir_ne.
Qed.








(** [add_transaction_data] always leaves a data file; the transaction count
    it stores is the number of rows of that file; the metadata file holds the
    metadata the object has in memory; nothing else of the metadata and
    neither artifact file changes; a first batch is written as it is. *)
Lemma add_transaction_data_effect
    (self : PersonalizedExpensePredictor.t) (df : list transaction) (w : World) :
  let uid := PersonalizedExpensePredictor.user_id self in
  let r := PersonalizedExpensePredictor.add_transaction_data self df w in
  let md := PersonalizedExpensePredictor.metadata self in
  let md' := PersonalizedExpensePredictor.metadata r.1 in
  PersonalizedExpensePredictor.user_id r.1 = uid
  ∧ same_elsewhere uid w r.2
  ∧ ∃ written,
    data_path (user_dir_of r.2 uid) = Some written
    ∧ transaction_count md' = length written
    ∧ metadata_path (user_dir_of r.2 uid) = Stored md'
    ∧ md' = with_transaction_count (length written) md
    ∧ model_path (user_dir_of r.2 uid) = model_path (user_dir_of w uid)
    ∧ scaler_path (user_dir_of r.2 uid) = scaler_path (user_dir_of w uid)
    ∧ (data_path (user_dir_of w uid) = None → written = df).
Proof.
  cbv zeta. unfold PersonalizedExpensePredictor.add_transaction_data,
    PersonalizedExpensePredictor._save_metadata,
    PersonalizedExpensePredictor._count_transactions; simpl.
  rewrite !user_dir_of_write_dir_eq; simpl.
  split; [done|]. split.
  { eapply same_elsewhere_trans; apply same_elsewhere_write_dir. }
  eexists. split; [reflexivity|].
  repeat split. intros Hnone. by rewrite Hnone.
Qed.





(** ** Sessions: other users, the metadata file, and what stays true *)

Lemma same_elsewhere_initialize u w :
  same_elsewhere u w (PersonalizedExpensePredictor._initialize_from_base_model u w).2.
Proof.
  unfold PersonalizedExpensePredictor._initialize_from_base_model.
  destruct (negb _ || negb _); [apply same_elsewhere_refl|].
  destruct (load (base_model_path w)); simpl; [|apply same_elsewhere_refl].
  destruct (load (base_scaler_path w)); simpl.
  - eapply same_elsewhere_trans; apply same_elsewhere_write_dir.
  - apply same_elsewhere_write_dir.
Qed.

(** Copying the base artifacts touches neither the data nor the metadata. *)
Lemma initialize_keeps_data u w :
  let w' := (PersonalizedExpensePredictor._initialize_from_base_model u w).2 in
  data_path (user_dir_of w' u) = data_path (user_dir_of w u)
  ∧ metadata_path (user_dir_of w' u) = metadata_path (user_dir_of w u).
Proof.
  cbv zeta. unfold PersonalizedExpensePredictor._initialize_from_base_model.
  destruct (negb _ || negb _); [done|].
  destruct (load (base_model_path w)); simpl; [|done].
  destruct (load (base_scaler_path w)); simpl;
    by rewrite !user_dir_of_write_dir_eq.
Qed.

(** The constructor: what it returns and what it leaves on disk. *)
Lemma init_effect u now w self w' :
  PersonalizedExpensePredictor.init u now w = Val (self, w') →
  PersonalizedExpensePredictor.user_id self = u
  ∧ same_elsewhere u w w'
  ∧ data_path (user_dir_of w' u) = data_path (user_dir_of w u)
  ∧ metadata_path (user_dir_of w' u)
    = Stored (PersonalizedExpensePredictor.metadata self)
  ∧ (∀ md, metadata_path (user_dir_of w u) = Stored md →
           PersonalizedExpensePredictor.metadata self = md)
  ∧ (metadata_path (user_dir_of w u) = Absent →
     PersonalizedExpensePredictor.metadata self
     = PersonalizedExpensePredictor.default_metadata now)
  ∧ metadata_path (user_dir_of w u) ≠ Corrupt.
Proof.
  unfold PersonalizedExpensePredictor.init,
    PersonalizedExpensePredictor._load_metadata,
    PersonalizedExpensePredictor._save_metadata.
  rewrite !user_dir_of_write_dir_eq.
  set (w0 := write_dir w u (user_dir_of w u)).
  assert (H0 : same_elsewhere u w w0) by apply same_elsewhere_write_dir.
  destruct (metadata_path (user_dir_of w u)) as [| |md0] eqn:Hmd; simpl;
    [|discriminate|].
  - set (w1 := write_dir w0 u _).
    assert (H1 : same_elsewhere u w w1)
      by (eapply same_elsewhere_trans; [exact H0|apply same_elsewhere_write_dir]).
    assert (Hd1 : user_dir_of w1 u
                  = set_metadata_path (user_dir_of w u)
                      (Stored (PersonalizedExpensePredictor.default_metadata now)))
      by (subst w1; by rewrite user_dir_of_write_dir_eq).
    destruct (negb _ || negb _); intros [= <- <-]; simpl.
    + destruct (initialize_keeps_data u w1) as [Hdata Hmeta].
      rewrite Hdata, Hmeta, Hd1. simpl.
      split; [done|]. split.
      { eapply same_elsewhere_trans; [exact H1|apply same_elsewhere_initialize]. }
      split; [done|]. split; [done|]. split; [intros md; discriminate|done].
    + rewrite Hd1. simpl.
      split; [done|]. split; [exact H1|].
      split; [done|]. split; [done|]. split; [intros md; discriminate|done].
  - assert (Hd0 : user_dir_of w0 u = user_dir_of w u)
      by (subst w0; by rewrite user_dir_of_write_dir_eq).
    destruct (negb _ || negb _); intros [= <- <-]; simpl.
    + destruct (initialize_keeps_data u w0) as [Hdata Hmeta].
      rewrite Hdata, Hmeta, Hd0, Hmd.
      split; [done|]. split.
      { eapply same_elsewhere_trans; [exact H0|apply same_elsewhere_initialize]. }
      split; [done|]. split; [done|]. split; [by intros md [= ->]|done].
    + rewrite Hd0, Hmd.
      split; [done|]. split; [done|].
      split; [done|]. split; [done|]. split; [by intros md [= ->]|done].
Qed.

(** A failed training run changes nothing, in memory or on disk. *)
Lemma train_model_failure fit self now epochs validation_split w self' w' :
  PersonalizedExpensePredictor.train_model fit self now epochs validation_split w
    = (false, self', w') →
  self' = self ∧ w' = w.
Proof.
  unfold PersonalizedExpensePredictor.train_model.
  destruct (prepare_training_data _) as [e|[X y]]; [by intros [= <- <-]|].
  destruct (bool_decide _); [by intros [= <- <-]|].
  match goal with
  | |- context [match ?m with _ => _ end] => destruct m as [[model history]|]
  end; [discriminate|by intros [= <- <-]].
Qed.

Lemma same_elsewhere_train fit self now epochs validation_split w :
  same_elsewhere (PersonalizedExpensePredictor.user_id self) w
    (PersonalizedExpensePredictor.train_model fit self now epochs validation_split w).2.
Proof.
  destruct (PersonalizedExpensePredictor.train_model _ _ _ _ _ _)
    as [[[] self'] w'] eqn:Ht; simpl.
  - destruct (train_model_success _ _ _ _ _ _ _ _ Ht)
      as (model & history & Hu & _ & ->).
    unfold PersonalizedExpensePredictor._save_metadata.
    eapply same_elsewhere_trans; apply same_elsewhere_write_dir.
  - apply train_model_failure in Ht as [_ ->]. apply same_elsewhere_refl.
Qed.

Lemma blend_weights_sound md data :
  sound_metadata md data →
  (PersonalizedExpensePredictor.blend_weights md).1
  + (PersonalizedExpensePredictor.blend_weights md).2 = 1
  ∧ 0 < (PersonalizedExpensePredictor.blend_weights md).1
  ∧ 0 ≤ (PersonalizedExpensePredictor.blend_weights md).2.
Proof.
  intros (Hsum & Hb & Hp & _).
  unfold PersonalizedExpensePredictor.blend_weights. cbv zeta.
  destruct (100 <? _)%nat; [simpl; repeat split; qc_eval|].
  destruct (50 <? _)%nat; [simpl; repeat split; qc_eval|].
  destruct (20 <? _)%nat; [simpl; repeat split; qc_eval|].
  done.
Qed.

Lemma call_effect fit c s :
  session_ok s →
  session_ok (do_call fit c s)
  ∧ PersonalizedExpensePredictor.user_id (do_call fit c s).1
    = PersonalizedExpensePredictor.user_id s.1
  ∧ same_elsewhere (PersonalizedExpensePredictor.user_id s.1) s.2 (do_call fit c s).2.
Proof.
  destruct s as [self w]. unfold session_ok, in_sync; simpl.
  intros [Hsync [Habs Hsound]].
  pose proof (Hsound _ Hsync) as Hmd.
  destruct c as [df|now epochs vs|income expenses month savings];
    cbn [do_call fst snd].
  - pose proof (add_transaction_data_effect self df w) as H. cbv zeta in H.
    destruct (PersonalizedExpensePredictor.add_transaction_data self df w)
      as [self' w']. cbn [fst snd] in H |- *.
    destruct H as (Hu & Hframe & written & Hdata & Hcount & Hmeta & Hmd' & _).
    rewrite Hu. split; [|by split].
    split; [done|]. split; [by rewrite Hmeta|].
    intros md. rewrite Hmeta. intros [= <-]. rewrite Hdata, Hmd'.
    destruct Hmd as (? & ? & ? & _). by repeat split.
  - destruct (PersonalizedExpensePredictor.train_model fit self now epochs vs w)
      as [[[] self'] w'] eqn:Ht; cbn [fst snd].
    + pose proof (same_elsewhere_train fit self now epochs vs w) as Hframe.
      rewrite Ht in Hframe; simpl in Hframe.
      destruct (train_model_success _ _ _ _ _ _ _ _ Ht)
        as (model & history & Hu & Hmd' & _).
      destruct (train_model_steps _ _ _ _ _ _ _ _ Ht)
        as (m & sc & X & y & Xs & m' & h & _ & _ & _ & _ & _ & Hdir).
      rewrite Hu. split; [|by split].
      rewrite Hdir; simpl. split; [done|]. split; [discriminate|].
      intros md [= <-]. rewrite Hmd'. unfold sound_metadata; simpl.
      destruct (blend_weights_sound _ _ Hmd) as (? & ? & ?).
      destruct Hmd as (_ & _ & _ & ?). done.
    + apply train_model_failure in Ht as [-> ->].
      split; [by split|]. split; [done|apply same_elsewhere_refl].
  - split; [by split|]. split; [done|apply same_elsewhere_refl].
Qed.

Lemma calls_effect fit calls s :
  session_ok s →
  session_ok (foldl (λ s c, do_call fit c s) s calls)
  ∧ PersonalizedExpensePredictor.user_id (foldl (λ s c, do_call fit c s) s calls).1
    = PersonalizedExpensePredictor.user_id s.1
  ∧ same_elsewhere (PersonalizedExpensePredictor.user_id s.1) s.2
      (foldl (λ s c, do_call fit c s) s calls).2.
Proof.
  revert s. induction calls as [|c calls IH]; intros s Hs; simpl.
  - split; [done|]. split; [done|apply same_elsewhere_refl].
  - destruct (call_effect fit c s Hs) as (Hs' & Hu & Hframe).
    destruct (IH _ Hs') as (Hs'' & Hu' & Hframe').
    split; [done|]. split; [congruence|].
    rewrite Hu in Hframe'. by eapply same_elsewhere_trans.
Qed.

Lemma default_metadata_sound now :
  sound_metadata (PersonalizedExpensePredictor.default_metadata now) None.
Proof. unfold sound_metadata; simpl. repeat split; qc_eval. Qed.

Lemma init_session_ok u now w self w' :
  sound_dir (user_dir_of w u) →
  PersonalizedExpensePredictor.init u now w = Val (self, w') →
  session_ok (self, w').
Proof.
  intros [Habs Hsound] Hi.
  destruct (init_effect _ _ _ _ _ Hi)
    as (Hu & _ & Hdata & Hmeta & Hstored & Hdefault & Hcorrupt).
  unfold session_ok, in_sync; simpl. rewrite Hu.
  split; [done|]. split; [by rewrite Hmeta|].
  intros md. rewrite Hmeta, Hdata. intros [= <-].
  destruct (metadata_path (user_dir_of w u)) as [| |md0] eqn:Hmd; [|done|].
  - rewrite Hdefault, Habs by done. apply default_metadata_sound.
  - rewrite (Hstored md0) by done. by apply Hsound.
Qed.

Lemma call_frame fit c s :
  PersonalizedExpensePredictor.user_id (do_call fit c s).1
  = PersonalizedExpensePredictor.user_id s.1
  ∧ same_elsewhere (PersonalizedExpensePredictor.user_id s.1) s.2 (do_call fit c s).2.
Proof.
  destruct s as [self w].
  destruct c as [df|now epochs vs|income expenses month savings];
    cbn [do_call fst snd].
  - pose proof (add_transaction_data_effect self df w) as H. cbv zeta in H.
    by destruct H as (Hu & Hframe & _).
  - split; [|apply same_elsewhere_train].
    destruct (PersonalizedExpensePredictor.train_model fit self now epochs vs w)
      as [[[] self'] w'] eqn:Ht; cbn [fst snd].
    + by destruct (train_model_success _ _ _ _ _ _ _ _ Ht) as (? & ? & Hu & _).
    + by apply train_model_failure in Ht as [-> _].
  - split; [done|apply same_elsewhere_refl].
Qed.

Lemma calls_frame fit calls s :
  PersonalizedExpensePredictor.user_id (foldl (λ s c, do_call fit c s) s calls).1
  = PersonalizedExpensePredictor.user_id s.1
  ∧ same_elsewhere (PersonalizedExpensePredictor.user_id s.1) s.2
      (foldl (λ s c, do_call fit c s) s calls).2.
Proof.
  revert s. induction calls as [|c calls IH]; intros s; simpl.
  - split; [done|apply same_elsewhere_refl].
  - destruct (call_frame fit c s) as (Hu & Hframe).
    destruct (IH (do_call fit c s)) as (Hu' & Hframe').
    split; [congruence|].
    rewrite Hu in Hframe'. by eapply same_elsewhere_trans.
Qed.

Lemma call_sync fit c s : in_sync s → in_sync (do_call fit c s).
Proof.
  destruct s as [self w]. unfold in_sync. cbn [fst snd]. intros Hsync.
  destruct c as [df|now epochs vs|income expenses month savings];
    cbn [do_call fst snd].
  - pose proof (add_transaction_data_effect self df w) as H. cbv zeta in H.
    destruct H as (Hu & _ & written & _ & _ & Hmeta & _). by rewrite Hu.
  - destruct (PersonalizedExpensePredictor.train_model fit self now epochs vs w)
      as [[[] self'] w'] eqn:Ht; cbn [fst snd].
    + destruct (train_model_success _ _ _ _ _ _ _ _ Ht) as (? & ? & Hu & _).
      destruct (train_model_steps _ _ _ _ _ _ _ _ Ht)
        as (m & sc & X & y & Xs & m' & h & _ & _ & _ & _ & _ & Hdir).
      by rewrite Hu, Hdir.
    + by apply train_model_failure in Ht as [-> ->].
  - done.
Qed.

Lemma calls_sync fit calls s :
  in_sync s → in_sync (foldl (λ s c, do_call fit c s) s calls).
Proof.
  revert s. induction calls as [|c calls IH]; intros s Hs; simpl; [done|].
  apply IH. by apply call_sync.
Qed.

(** With a readable metadata file the constructor succeeds and returns it. *)
Lemma init_loads u now w md :
  metadata_path (user_dir_of w u) = Stored md →
  ∃ self w',
    PersonalizedExpensePredictor.init u now w = Val (self, w')
    ∧ PersonalizedExpensePredictor.metadata self = md.
Proof.
  intros Hmd. unfold PersonalizedExpensePredictor.init,
    PersonalizedExpensePredictor._load_metadata.
  rewrite !user_dir_of_write_dir_eq, Hmd. simpl.
  eexists _, _. split; [reflexivity|done].
Qed.


(** X4: what a session has in memory at its end is what the next constructor
    for the same user loads: the metadata file is rewritten by every call
    that changes the metadata. *)
Theorem next_session_loads_last_metadata
    fit (u : string) (now now' : Z) (calls : list call) (w : World)
    (s : PersonalizedExpensePredictor.t * World) :
  PersonalizedExpensePredictor.init u now w = Val s →
  let s' := foldl (λ s c, do_call fit c s) s calls in
  ∃ self'' w'',
    PersonalizedExpensePredictor.init u now' s'.2 = Val (self'', w'')
    ∧ PersonalizedExpensePredictor.metadata self''
      = PersonalizedExpensePredictor.metadata s'.1.
Proof.
  intros Hi. cbv zeta. destruct s as [self w1].
  destruct (init_effect _ _ _ _ _ Hi) as (Hu & _ & _ & Hmeta & _).
  assert (Hsync : in_sync (self, w1)) by (unfold in_sync; simpl; by rewrite Hu).
  pose proof (calls_sync fit calls _ Hsync) as Hsync'.
  destruct (calls_frame fit calls (self, w1)) as (Hu' & _).
  unfold in_sync in Hsync'. rewrite Hu' in Hsync'. simpl in Hsync'.
  rewrite Hu in Hsync'. by apply init_loads.
Qed.

Lemma next_session_loads_last_metadata_witness :
  ∃ self'' w'',
    PersonalizedExpensePredictor.init "u1" 950400
      (step mean_fit demo_world (Session "u1" 0 demo_calls)) = Val (self'', w'')
    ∧ transaction_count (PersonalizedExpensePredictor.metadata self'') = 24%nat
    ∧ training_count (PersonalizedExpensePredictor.metadata self'') = 1%nat.
Proof.
  destruct (PersonalizedExpensePredictor.init "u1" 0 demo_world) as [s|] eqn:Hi;
    [|vm_compute in Hi; discriminate Hi].
  destruct (next_session_loads_last_metadata
              mean_fit "u1" 0 950400 demo_calls demo_world s Hi)
    as (self'' & w'' & Hinit & Hmd).
  exists self'', w''. simpl. rewrite Hi. split; [exact Hinit|].
  rewrite Hmd. clear Hinit Hmd.
  assert (Hs : s = match PersonalizedExpensePredictor.init "u1" 0 demo_world with
                   | Val s => s
                   | Raise _ => s
                   end) by (by rewrite Hi).
  rewrite Hs. clear. split; vm_compute; reflexivity.
Defined.

(** X5 (invariant): if in every user directory the metadata, when present,
    has blend weights that sum to 1 with a positive base weight and a
    transaction count equal to the number of rows of the data file (and
    there is no data file without metadata), then the same holds after any
    run of sessions and base retrainings. *)
Theorem metadata_stays_sound fit (events : list event) (w : World) :
  sound_world w → sound_world (run fit events w).
Proof.
  unfold run. revert w. induction events as [|e events IH]; intros w Hw; [done|].
  simpl. apply IH. clear IH. intros uid.
  destruct e as [u now calls|m sc]; simpl; [|apply Hw].
  destruct (PersonalizedExpensePredictor.init u now w) as [[self w1]|] eqn:Hi.
  - destruct (init_effect _ _ _ _ _ Hi) as (Hu & Hframe & _).
    pose proof (init_session_ok u now w self w1 (Hw u) Hi) as Hok.
    destruct (calls_effect fit calls _ Hok) as ([_ Hsound] & Hu' & Hframe').
    simpl in Hu', Hframe'. rewrite Hu in Hframe'. rewrite Hu', Hu in Hsound.
    destruct (decide (uid = u)) as [->|Hne]; [done|].
    destruct Hframe as (_ & _ & K1). destruct Hframe' as (_ & _ & K2).
    rewrite K2, K1 by done. apply Hw.
  - rewrite user_dir_of_mkdir. apply Hw.
Qed.

Lemma metadata_stays_sound_witness :
  sound_world
    (run mean_fit (Session "u1" 0 demo_calls :: demo_events) demo_world).
Proof.
  apply metadata_stays_sound.
  intros uid. unfold sound_dir, user_dir_of. simpl.
  rewrite lookup_empty. simpl. split; [done|discriminate].
Defined.

(** ** Training *)

Lemma prepare_success data_file X y :
  prepare_training_data data_file = inr (X, y) →
  ∃ data dated rows,
    data_file = Some data
    ∧ with_months data = Some dated
    ∧ monthly_table data = inr rows
    ∧ X = (training_pairs rows).*1
    ∧ y = (training_pairs rows).*2.
Proof.
  unfold prepare_training_data.
  destruct data_file as [data|]; [|discriminate].
  destruct (monthly_table data) as [e|rows] eqn:Ht; [discriminate|].
  destruct (bool_decide _ || bool_decide _); [discriminate|].
  intros [= <- <-].
  destruct (with_months data) as [dated|] eqn:Hd.
  - by exists data, dated, rows.
  - unfold monthly_table in Ht. rewrite Hd in Ht. discriminate.
Qed.

Lemma train_model_success_data fit self now epochs validation_split w self' w' :
  PersonalizedExpensePredictor.train_model fit self now epochs validation_split w
    = (true, self', w') →
  ∃ X y,
    prepare_training_data
      (data_path (user_dir_of w (PersonalizedExpensePredictor.user_id self)))
    = inr (X, y)
    ∧ (3 ≤ length X)%nat.
Proof.
  unfold PersonalizedExpensePredictor.train_model.
  destruct (prepare_training_data _) as [e|[X y]]; [discriminate|].
  destruct (bool_decide (length X < 3)%nat) eqn:Hlen; [discriminate|].
  intros _. exists X, y. split; [done|].
  apply bool_decide_eq_false in Hlen. lia.
Qed.

(** X6: a training run succeeds only on a log whose dates all parse, that has
    income and expense transactions, and whose transactions fall in at least
    four different months. *)
Theorem training_needs_four_months
    fit self now epochs validation_split w self' w' :
  PersonalizedExpensePredictor.train_model fit self now epochs validation_split w
    = (true, self', w') →
  ∃ data dated months,
    data_path (user_dir_of w (PersonalizedExpensePredictor.user_id self)) = Some data
    ∧ with_months data = Some dated
    ∧ log_has dated "income"
    ∧ log_has dated "expense"
    ∧ (4 ≤ length months)%nat
    ∧ StronglySorted ym_lt months
    ∧ ∀ ym, ym ∈ months ↔ ∃ r, r ∈ dated ∧ d_year_month r = ym.
Proof.
  intros Ht.
  destruct (train_model_success_data _ _ _ _ _ _ _ _ Ht) as (X & y & Hp & Hlen).
  destruct (prepare_success _ _ _ Hp) as (data & dated & rows & Hd & Hw & Hrows & -> & _).
  rewrite length_fmap, length_training_pairs in Hlen.
  destruct (monthly_table_rows data dated Hw) as [Hboth Hless].
  destruct (decide (log_has dated "income" ∧ log_has dated "expense"))
    as [Hhas|Hno]; [|rewrite (Hless Hno) in Hrows; discriminate].
  destruct (Hboth Hhas) as (rows' & Hrows' & Hsorted & Hkeys & _).
  rewrite Hrows in Hrows'. injection Hrows' as <-.
  exists data, dated, (m_year_month <$> rows).
  rewrite length_fmap. destruct Hhas. repeat split; try done; try lia.
  - by apply Hkeys.
  - by apply Hkeys.
Qed.

Lemma training_needs_four_months_witness :
  ∃ months : list year_month_key, (4 ≤ length months)%nat ∧ StronglySorted ym_lt months.
Proof.
  destruct (training_needs_four_months
              mean_fit demo_loaded.1 86400 100 (lit 0.2) demo_loaded.2
              (PersonalizedExpensePredictor.train_model
                 mean_fit demo_loaded.1 86400 100 (lit 0.2) demo_loaded.2).1.2
              (PersonalizedExpensePredictor.train_model
                 mean_fit demo_loaded.1 86400 100 (lit 0.2) demo_loaded.2).2)
    as (data & dated & months & _ & _ & _ & _ & Hlen & Hsorted & _).
  - vm_compute. reflexivity.
  - by exists months.
Defined.

(** X7: training fails, leaving the predictor and every file as they were,
    when the log has a date that cannot be parsed, or when the user's
    regressor file or scaler file is missing or unreadable. *)
Theorem training_fails_without_touching_anything
    fit self now epochs validation_split w data :
  let d := user_dir_of w (PersonalizedExpensePredictor.user_id self) in
  data_path d = Some data →
  Exists (λ t, date t = None) data
  ∨ (∀ m, model_path d ≠ Stored m)
  ∨ (∀ s, scaler_path d ≠ Stored s) →
  PersonalizedExpensePredictor.train_model fit self now epochs validation_split w
  = (false, self, w).
Proof.
  cbv zeta. intros Hd Hbad.
  destruct (PersonalizedExpensePredictor.train_model fit self now epochs
              validation_split w) as [[[] self'] w'] eqn:Ht.
  - exfalso.
    destruct (train_model_steps _ _ _ _ _ _ _ _ Ht)
      as (m & sc & X & y & Xs & m' & h & Hm & Hs & Hp & _).
    destruct Hbad as [Hdate|[Hmodel|Hscaler]].
    + destruct (prepare_success _ _ _ Hp) as (data' & dated & rows & Hd' & Hw & _).
      rewrite Hd in Hd'. injection Hd' as <-.
      unfold with_months in Hw.
      assert (Hnone : mapM (λ t, d ← date t;
                                 Some {| d_amount := amount t; d_type := type t;
                                         d_month := month_of_year d;
                                         d_year_month := (year d, month_of_year d) |})
                           data = None).
      { apply mapM_None_2. eapply Exists_impl; [exact Hdate|].
        intros t Hnone. by rewrite Hnone. }
      congruence.
    + by apply (Hmodel m).
    + by apply (Hscaler sc).
  - by apply train_model_failure in Ht as [-> ->].
Qed.

Lemma training_fails_without_touching_anything_witness :
  PersonalizedExpensePredictor.train_model mean_fit ids_predictor 0 100 (lit 0.2)
    (write_dir ids_world "u1"
       (set_scaler_path (user_dir_of ids_world "u1") Corrupt))
  = (false, ids_predictor,
     write_dir ids_world "u1"
       (set_scaler_path (user_dir_of ids_world "u1") Corrupt)).
Proof.
  apply (training_fails_without_touching_anything _ _ _ _ _ _ ids_log).
  - reflexivity.
  - right. right. intros s. vm_compute. discriminate.
Defined.

(** X8: after a successful training run at time [now], [should_retrain]
    answers yes exactly when the data file has at least [min_transactions]
    rows and at least [min_days] whole days have passed since [now]. *)
Theorem should_retrain_after_training
    fit self now epochs validation_split w self' w'
    (later : Z) (min_transactions : nat) (min_days : Z) :
  PersonalizedExpensePredictor.train_model fit self now epochs validation_split w
    = (true, self', w') →
  ∃ data,
    data_path (user_dir_of w' (PersonalizedExpensePredictor.user_id self')) = Some data
    ∧ PersonalizedExpensePredictor.should_retrain
        self' later min_transactions min_days w'
      = bool_decide ((min_transactions ≤ length data)%nat
                     ∧ (min_days ≤ (later - now) `div` 86400)%Z).
Proof.
  intros Ht.
  destruct (train_model_success _ _ _ _ _ _ _ _ Ht) as (? & ? & Hu & Hmd & _).
  destruct (train_model_steps _ _ _ _ _ _ _ _ Ht)
    as (m & sc & X & y & Xs & m' & h & _ & _ & Hp & _ & _ & Hdir).
  destruct (prepare_success _ _ _ Hp) as (data & _ & _ & Hd & _).
  exists data. rewrite Hu, Hdir. simpl. split; [done|].
  unfold PersonalizedExpensePredictor.should_retrain,
    PersonalizedExpensePredictor._count_transactions.
  rewrite Hu, Hdir, Hmd. simpl. rewrite Hd. simpl.
  destruct (decide (length data < min_transactions)%nat) as [Hlt|Hge].
  - rewrite (bool_decide_eq_true_2 _ Hlt).
    symmetry. apply bool_decide_eq_false_2. lia.
  - rewrite (bool_decide_eq_false_2 _ Hge).
    apply bool_decide_ext. lia.
Qed.

Lemma should_retrain_after_training_witness :
  let r := PersonalizedExpensePredictor.train_model
             mean_fit demo_loaded.1 86400 100 (lit 0.2) demo_loaded.2 in
  PersonalizedExpensePredictor.should_retrain r.1.2 (86400 * 7) 20 7 r.2 = false
  ∧ PersonalizedExpensePredictor.should_retrain r.1.2 (86400 * 8) 20 7 r.2 = true.
Proof.
  intros r.
  assert (Hok : PersonalizedExpensePredictor.train_model
                  mean_fit demo_loaded.1 86400 100 (lit 0.2) demo_loaded.2
                = (true, r.1.2, r.2)) by (vm_compute; reflexivity).
  split.
  - destruct (should_retrain_after_training _ _ _ _ _ _ _ _ (86400 * 7)%Z 20%nat 7%Z Hok)
      as (data & _ & ->).
    apply bool_decide_eq_false_2. intros [_ H]. vm_compute in H. by apply H.
  - destruct (should_retrain_after_training _ _ _ _ _ _ _ _ (86400 * 8)%Z 20%nat 7%Z Hok)
      as (data & Hd & ->).
    apply bool_decide_eq_true_2. split.
    + assert (Hlen : length (default [] (data_path
                 (user_dir_of r.2 (PersonalizedExpensePredictor.user_id r.1.2))))
                     = 24%nat) by (vm_compute; reflexivity).
      rewrite Hd in Hlen. simpl in Hlen. lia.
    + vm_compute. discriminate.
Defined.

(** ** The base predictor *)

Lemma clampInto_le_upper raw lower upper : Spec.clampInto raw lower upper ≤ upper.
Proof. unfold Spec.clampInto. qc_cases. Qed.

Lemma min3_le a b c :
  Spec.min3 a b c ≤ a ∧ Spec.min3 a b c ≤ b ∧ Spec.min3 a b c ≤ c.
Proof. unfold Spec.min3, py_min. repeat split; qc_cases. Qed.

(** With a positive income the clamped value is at most 30% of the income,
    150% of the expenses, and the seasonal share of the expenses. *)
Lemma clampPrediction_caps raw expenses month income :
  0 < income →
  Spec.clampPrediction raw expenses month income ≤ income * lit 0.3
  ∧ Spec.clampPrediction raw expenses month income ≤ expenses * lit 1.5
  ∧ (month ∈ [10; 11; 12]%Z →
     Spec.clampPrediction raw expenses month income ≤ expenses * lit 1.3)
  ∧ (month ∉ [10; 11; 12]%Z →
     Spec.clampPrediction raw expenses month income ≤ expenses * lit 1.2).
Proof.
  intros Hinc. unfold Spec.clampPrediction, Spec.computeBounds. cbv zeta.
  rewrite (decide_True (P := 0 < income)) by done.
  match goal with
  | |- context [Spec.clampInto raw ?lo ?hi] =>
    pose proof (clampInto_le_upper raw lo hi) as Hle;
    generalize dependent (Spec.clampInto raw lo hi)
  end.
  intros x Hx.
  match type of Hx with
  | _ ≤ Spec.min3 ?a ?b ?c => destruct (min3_le a b c) as (Ha & Hb & Hc)
  end.
  split; [by etrans|]. split; [by etrans|].
  destruct (decide (month ∈ [10; 11; 12]%Z)) as [Hin|Hout].
  - split; [intros _; by etrans|done].
  - split; [done|intros _; by etrans].
Qed.

(** X9: when the base predictor returns a prediction, the income was positive
    and the month within 1..12, and the prediction is at most 30% of the
    income, at most 150% of the expenses it worked with (the given ones, or
    max(income*0.1, 1000) when those were not positive), and at most 130% of
    them in months 10-12, 120% otherwise. *)
Theorem base_prediction_is_validated_and_capped
    (self : ExpensePredictor.t) (income expenses : pyfloat) (month : Z)
    (savings r : pyfloat) :
  ExpensePredictor.predict self income expenses month savings = Some r →
  let used := if decide (expenses ≤ 0) then py_max (income * lit 0.1) (lit 1000)
              else expenses in
  0 < income
  ∧ (1 ≤ month ≤ 12)%Z
  ∧ r ≤ income * lit 0.3
  ∧ r ≤ used * lit 1.5
  ∧ (month ∈ [10; 11; 12]%Z → r ≤ used * lit 1.3)
  ∧ (month ∉ [10; 11; 12]%Z → r ≤ used * lit 1.2).
Proof.
  unfold ExpensePredictor.predict, ExpensePredictor.predict_body. cbv zeta.
  destruct (decide (income ≤ 0)) as [Hle|Hpos]; [discriminate|].
  apply Qcnot_le_lt in Hpos.
  destruct (bool_decide (month < 1)%Z || bool_decide (month > 12)%Z) eqn:Hm;
    [discriminate|].
  apply orb_false_iff in Hm as [H1 H2].
  apply bool_decide_eq_false in H1, H2.
  destruct (ExpensePredictor.scaler self _) as [scaled|]; simpl; [|discriminate].
  destruct (ExpensePredictor.model self _) as [raw|]; simpl; [|discriminate].
  intros [= <-]. rewrite base_postprocess_spec.
  split; [done|]. split; [lia|].
  by apply clampPrediction_caps.
Qed.

Lemma base_prediction_is_validated_and_capped_witness :
  lit 9000 ≤ lit 50000 * lit 0.3.
Proof.
  destruct (base_prediction_is_validated_and_capped
              {| ExpensePredictor.model := constant_model (lit 9000);
                 ExpensePredictor.scaler := identity_scaler |}
              (lit 50000) (lit 8000) 4 (lit 42000) (lit 9000))
    as (_ & _ & H & _).
  - by_evaluation.
  - exact H.
Defined.

(** X10: the base predictor treats an observation with non-positive expenses
    exactly as the same observation with expenses max(income*0.1, 1000). *)
Theorem base_predictor_substitutes_expenses
    (self : ExpensePredictor.t) (income expenses : pyfloat) (month : Z)
    (savings : pyfloat) :
  expenses ≤ 0 →
  ExpensePredictor.predict self income expenses month savings
  = ExpensePredictor.predict self income
      (py_max (income * lit 0.1) (lit 1000)) month savings.
Proof.
  intros He. unfold ExpensePredictor.predict, ExpensePredictor.predict_body.
  assert (Hpos : ¬ py_max (income * lit 0.1) (lit 1000) ≤ 0).
  { assert (H1000 : 0 < lit 1000) by qc_eval.
    unfold py_max. case_decide; intros Hc; qc_order. }
  rewrite (decide_True (P := expenses ≤ 0)) by done.
  by rewrite (decide_False (P := py_max (income * lit 0.1) (lit 1000) ≤ 0)).
Qed.

Lemma base_predictor_substitutes_expenses_witness :
  ExpensePredictor.predict
    {| ExpensePredictor.model := constant_model (lit 9000);
       ExpensePredictor.scaler := identity_scaler |}
    (lit 50000) (lit (-20)) 11 (lit 10000)
  = ExpensePredictor.predict
      {| ExpensePredictor.model := constant_model (lit 9000);
         ExpensePredictor.scaler := identity_scaler |}
      (lit 50000) (py_max (lit 50000 * lit 0.1) (lit 1000)) 11 (lit 10000).
Proof.
  apply base_predictor_substitutes_expenses. qc_eval.
Defined.

(** ** The personalized predictor against the base predictor *)

Lemma blend_with_default_weights (base_prediction prediction : pyfloat) :
  base_prediction * lit 1.0 + prediction * lit 0.0 = base_prediction.
Proof.
  replace (lit 1.0) with (1 : Qc) by (apply Qc_is_canon; reflexivity).
  replace (lit 0.0) with (0 : Qc) by (apply Qc_is_canon; reflexivity).
  ring.
Qed.

(** X11: for a user never referenced before, with stored base artifacts, and
    an observation that passes the base predictor's validation unchanged
    (income > 0, expenses > 0, month in 1..12), the personalized script
    prints exactly what the base predictor returns, whenever that one
    returns. *)
Theorem new_user_gets_the_base_prediction
    (w : World) (uid : string) (now : Z) (bm : Regressor) (bs : Scaler)
    (income expenses : pyfloat) (month : Z) (savings r : pyfloat) :
  user_models w !! uid = None →
  base_model_path w = Stored bm →
  base_scaler_path w = Stored bs →
  0 < income → 0 < expenses → (1 ≤ month ≤ 12)%Z →
  ExpensePredictor.main w income expenses month savings = Some r →
  (personalized_predict uid now income expenses month savings w).1
  = (Some (PyFloat r), true).
Proof.
  intros Hnone Hbm Hbs Hi He Hm.
  destruct (init_bootstraps uid now w bm bs Hnone Hbm Hbs)
    as (self & w' & Hinit & Hu & Hmd & Hbm' & Hbs' & Hdir).
  unfold personalized_predict. rewrite Hinit. simpl.
  unfold ExpensePredictor.main, ExpensePredictor.init,
    ExpensePredictor.predict, ExpensePredictor.predict_body.
  rewrite Hbm, Hbs; simpl.
  rewrite decide_False by (intros Hc; qc_order).
  rewrite decide_False by (intros Hc; qc_order).
  rewrite !bool_decide_eq_false_2 by lia. simpl.
  unfold PersonalizedExpensePredictor.predict,
    PersonalizedExpensePredictor.predict_personalized.
  rewrite Hu, Hdir, Hmd, Hbm', Hbs'. simpl.
  destruct (bs _) as [scaled|]; simpl; [|discriminate].
  destruct (bm _) as [raw|]; simpl; [|discriminate].
  intros [= <-].
  rewrite blend_with_default_weights.
  by rewrite personal_postprocess_spec, base_postprocess_spec.
Qed.

Lemma new_user_gets_the_base_prediction_witness :
  (personalized_predict "new-user" 0 (lit 50000) (lit 4000) 11 (lit 46000)
     demo_world).1
  = (Some (PyFloat (lit 4200)), true).
Proof.
  apply (new_user_gets_the_base_prediction
           demo_world "new-user" 0 (constant_model (lit 4200)) identity_scaler).
  - reflexivity.
  - reflexivity.
  - reflexivity.
  - qc_eval.
  - qc_eval.
  - lia.
  - by_evaluation.
Defined.

(** ** The three tiers of the personalized [predict] *)

(** X12: [predict] ends in one of three ways.  It returns [None], and then
    the base files are not both there; or it returns the heuristic
    [expenses * 1.05], and then both base files are there and the personalized
    path raised; or it returns a clamped value, which for a positive income
    is at most 30% of the income and 150% of the expenses. *)
Theorem predict_outcomes
    (self : PersonalizedExpensePredictor.t) (income expenses : pyfloat)
    (month : Z) (savings : pyfloat) (w : World) :
  let result :=
    PersonalizedExpensePredictor.predict self income expenses month savings w in
  let base_files :=
    path_exists (base_model_path w) && path_exists (base_scaler_path w) in
  (result = PyNone ∧ base_files = false)
  ∨ (result = PyFloat (expenses * lit 1.05) ∧ base_files = true
     ∧ ∃ e, PersonalizedExpensePredictor.predict_personalized
              self income expenses month savings w = Raise e)
  ∨ (∃ raw, result = PyFloat (Spec.clampPrediction raw expenses month income)
            ∧ (0 < income →
               Spec.clampPrediction raw expenses month income ≤ income * lit 0.3
               ∧ Spec.clampPrediction raw expenses month income
                 ≤ expenses * lit 1.5)).
Proof.
  cbv zeta. unfold PersonalizedExpensePredictor.predict.
  destruct (PersonalizedExpensePredictor.predict_personalized _ _ _ _ _ _)
    as [x|e] eqn:Hp.
  - right. right. revert Hp.
    unfold PersonalizedExpensePredictor.predict_personalized.
    destruct (load (model_path _)) as [pm|]; simpl; [|discriminate].
    destruct (load (scaler_path _)) as [ps|]; simpl; [|discriminate].
    destruct (ps _) as [scaled|]; simpl; [|discriminate].
    destruct (pm _) as [p|]; simpl; [|discriminate].
    match goal with
    | |- res_bind ?m _ = _ → _ => destruct m as [blended|]
    end; simpl; [|discriminate].
    intros [= <-]. exists blended. rewrite personal_postprocess_spec.
    split; [done|]. intros Hinc.
    by destruct (clampPrediction_caps blended expenses month income Hinc)
      as (? & ? & _).
  - unfold PersonalizedExpensePredictor.predict_fallback.
    destruct (path_exists (base_model_path w) && path_exists (base_scaler_path w));
      [|by left].
    right.
    destruct (load (base_model_path w)) as [bm|]; simpl; [|left; eauto].
    destruct (load (base_scaler_path w)) as [bs|]; simpl; [|left; eauto].
    destruct (bs _) as [scaled|]; simpl; [|left; eauto].
    destruct (bm _) as [p|]; simpl; [|left; eauto].
    right. exists p. rewrite fallback_postprocess_spec.
    split; [done|]. intros Hinc.
    by destruct (clampPrediction_caps p expenses month income Hinc) as (? & ? & _).
Qed.

(** X13: once a user has working artifacts, losing the base files does not
    stop predictions: the blend is skipped whatever the weights are, and
    [predict] returns the user's own prediction, clamped. *)
Theorem predictions_survive_losing_the_base
    (self : PersonalizedExpensePredictor.t) (income expenses : pyfloat)
    (month : Z) (savings : pyfloat) (w : World)
    (model : Regressor) (scaler : Scaler) (scaled_input : features)
    (prediction : pyfloat) :
  let d := user_dir_of w (PersonalizedExpensePredictor.user_id self) in
  model_path d = Stored model →
  scaler_path d = Stored scaler →
  scaler (Features income expenses (Qc_of_Z month) savings) = Val scaled_input →
  model scaled_input = Val prediction →
  path_exists (base_model_path w) && path_exists (base_scaler_path w) = false →
  PersonalizedExpensePredictor.predict self income expenses month savings w
  = PyFloat (Spec.clampPrediction prediction expenses month income).
Proof.
  cbv zeta. intros Hm Hs Hsc Hp Hb.
  unfold PersonalizedExpensePredictor.predict,
    PersonalizedExpensePredictor.predict_personalized.
  rewrite Hm, Hs. simpl. rewrite Hsc. simpl. rewrite Hp. simpl. rewrite Hb.
  case_decide; simpl; by rewrite personal_postprocess_spec.
Qed.

Lemma predictions_survive_losing_the_base_witness :
  PersonalizedExpensePredictor.predict ids_predictor
    (lit 50000) (lit 4000) 3 (lit 46000)
    {| base_model_path := Absent; base_scaler_path := Corrupt;
       user_models := user_models ids_world |}
  = PyFloat (Spec.clampPrediction (lit 4200) (lit 4000) 3 (lit 50000)).
Proof.
  apply (predictions_survive_losing_the_base
           ids_predictor (lit 50000) (lit 4000) 3 (lit 46000) _
           (constant_model (lit 4200)) identity_scaler
           (Features (lit 50000) (lit 4000) (Qc_of_Z 3) (lit 46000)));
    reflexivity.
Defined.

(** X14: when the base scaler file is unreadable at a user's first
    reference, the bootstrap stops half-way without a word: the regressor is
    copied, the scaler is not, the script still reports success, and what it
    prints is the heuristic [expenses * 1.05]. *)
Theorem half_bootstrap_falls_to_the_heuristic
    (w : World) (uid : string) (now : Z) (bm : Regressor)
    (income expenses : pyfloat) (month : Z) (savings : pyfloat) :
  user_models w !! uid = None →
  base_model_path w = Stored bm →
  base_scaler_path w = Corrupt →
  let r := personalized_predict uid now income expenses month savings w in
  r.1 = (Some (PyFloat (expenses * lit 1.05)), true)
  ∧ model_path (user_dir_of r.2 uid) = Stored bm
  ∧ scaler_path (user_dir_of r.2 uid) = Absent.
Proof.
  intros Hnone Hbm Hbs.
  assert (Hd : user_dir_of w uid = empty_dir)
    by (unfold user_dir_of; by rewrite Hnone).
  cbv zeta. unfold personalized_predict, PersonalizedExpensePredictor.init,
    PersonalizedExpensePredictor._load_metadata,
    PersonalizedExpensePredictor._save_metadata,
    PersonalizedExpensePredictor._initialize_from_base_model.
  rewrite !Hd. rewrite !user_dir_of_write_dir_eq. simpl.
  rewrite !user_dir_of_write_dir_eq. simpl.
  rewrite Hbm, Hbs. simpl.
  rewrite !user_dir_of_write_dir_eq. simpl.
  split; [|done].
  unfold PersonalizedExpensePredictor.predict,
    PersonalizedExpensePredictor.predict_personalized,
    PersonalizedExpensePredictor.predict_fallback. simpl.
  rewrite !user_dir_of_write_dir_eq. simpl.
  by rewrite Hbm, Hbs.
Qed.

Lemma half_bootstrap_falls_to_the_heuristic_witness :
  (personalized_predict "u9" 0 (lit 50000) (lit 4000) 3 (lit 46000)
     {| base_model_path := Stored (constant_model (lit 4200));
        base_scaler_path := Corrupt; user_models := ∅ |}).1
  = (Some (PyFloat (lit 4000 * lit 1.05)), true).
Proof.
  destruct (half_bootstrap_falls_to_the_heuristic
              {| base_model_path := Stored (constant_model (lit 4200));
                 base_scaler_path := Corrupt; user_models := ∅ |}
              "u9" 0 (constant_model (lit 4200))
              (lit 50000) (lit 4000) 3 (lit 46000)) as (H & _).
  - reflexivity.
  - reflexivity.
  - reflexivity.
  - exact H.
Defined.

(** ** The scripts *)



Lemma init_keeps_bootstrapped_artifacts u now w self w' :
  bootstrapped w u →
  PersonalizedExpensePredictor.init u now w = Val (self, w') →
  model_path (user_dir_of w' u) = model_path (user_dir_of w u)
  ∧ scaler_path (user_dir_of w' u) = scaler_path (user_dir_of w u).
Proof.
  intros [Hm Hs]. unfold PersonalizedExpensePredictor.init,
    PersonalizedExpensePredictor._load_metadata,
    PersonalizedExpensePredictor._save_metadata.
  rewrite !user_dir_of_write_dir_eq.
  destruct (metadata_path (user_dir_of w u)) as [| |md]; simpl; [|discriminate|].
  - rewrite !user_dir_of_write_dir_eq. simpl. rewrite Hm, Hs. simpl.
    intros [= <- <-]. by rewrite !user_dir_of_write_dir_eq.
  - rewrite !user_dir_of_write_dir_eq. rewrite Hm, Hs. simpl.
    intros [= <- <-]. by rewrite !user_dir_of_write_dir_eq.
Qed.

(** X16: [update_user_model] never trains on a log that, after the new
    transactions are merged in, has fewer than 10 rows: the regressor file of
    a bootstrapped user stays as it was. *)
Theorem update_with_few_rows_does_not_train
    fit (u : string) (now : Z) (transactions : list transaction) (w : World) :
  bootstrapped w u →
  let w' := (update_user_model fit u now transactions w).2 in
  (∀ data, data_path (user_dir_of w' u) = Some data → (length data < 10)%nat) →
  model_path (user_dir_of w' u) = model_path (user_dir_of w u).
Proof.
  intros Hb. cbv zeta. unfold update_user_model.
  destruct (PersonalizedExpensePredictor.init u now w) as [[self w1]|e] eqn:Hi.
  - destruct (init_keeps_bootstrapped_artifacts _ _ _ _ _ Hb Hi) as [Hm1 _].
    destruct (init_effect _ _ _ _ _ Hi) as (Hu & _).
    pose proof (add_transaction_data_effect self transactions w1) as Ha.
    cbv zeta in Ha. rewrite Hu in Ha.
    destruct (PersonalizedExpensePredictor.add_transaction_data self transactions w1)
      as [self2 w2]. cbn [fst snd] in Ha.
    destruct Ha as (Hu2 & _ & written & Hdata & _ & _ & _ & Hm2 & _).
    destruct (PersonalizedExpensePredictor.should_retrain self2 now 10 7 w2) eqn:Hr;
      cbn [snd]; [|intros _; congruence].
    intros Hfew. exfalso.
    destruct (PersonalizedExpensePredictor.train_model fit self2 now 150 (lit 0.2) w2)
      as [[[] self3] w3] eqn:Ht; cbn [snd] in Hfew.
    + destruct (train_model_steps _ _ _ _ _ _ _ _ Ht)
        as (m & sc & X & y & Xs & m' & h & _ & _ & _ & _ & _ & Hdir).
      rewrite Hu2 in Hdir. specialize (Hfew written).
      rewrite Hdir in Hfew. simpl in Hfew. specialize (Hfew Hdata).
      revert Hr. unfold PersonalizedExpensePredictor.should_retrain,
        PersonalizedExpensePredictor._count_transactions.
      rewrite Hu2, Hdata. simpl.
      rewrite (bool_decide_eq_true_2 (length written < 10)%nat) by done.
      discriminate.
    + apply train_model_failure in Ht as [_ ->].
      specialize (Hfew written Hdata).
      revert Hr. unfold PersonalizedExpensePredictor.should_retrain,
        PersonalizedExpensePredictor._count_transactions.
      rewrite Hu2, Hdata. simpl.
      rewrite (bool_decide_eq_true_2 (length written < 10)%nat) by done.
      discriminate.
  - cbn [snd]. intros _. by rewrite user_dir_of_mkdir.
Qed.

Lemma update_with_few_rows_does_not_train_witness :
  model_path
    (user_dir_of
       (update_user_model mean_fit "u1" 5
          [tx_id "a3" 40 "expense" 2024 2 1] ids_world).2 "u1")
  = model_path (user_dir_of ids_world "u1").
Proof.
  apply (update_with_few_rows_does_not_train
           mean_fit "u1" 5 [tx_id "a3" 40 "expense" 2024 2 1] ids_world).
  - split; reflexivity.
  - intros data Hd.
    assert (Hlen : length (default [] (data_path
              (user_dir_of
                 (update_user_model mean_fit "u1" 5
                    [tx_id "a3" 40 "expense" 2024 2 1] ids_world).2
                 "u1"))) = 3%nat) by (vm_compute; reflexivity).
    rewrite Hd in Hlen. simpl in Hlen. lia.
Defined.

(** ** The training set does not depend on the order of the log *)

Lemma with_months_Permutation data1 data2 :
  data1 ≡ₚ data2 →
  match with_months data1, with_months data2 with
  | Some d1, Some d2 => d1 ≡ₚ d2
  | None, None => True
  | _, _ => False
  end.
Proof.
  unfold with_months.
  match goal with |- context [mapM ?g data1] => generalize g end.
  intros f.
  induction 1 as [|t l1 l2 _ IH|t1 t2 l|l1 l2 l3 _ IH1 _ IH2]; csimpl.
  - done.
  - destruct (f t); simpl;
      destruct (mapM f l1), (mapM f l2); simpl; try done.
    by constructor.
  - destruct (f t1), (f t2); simpl; destruct (mapM f l); simpl; try done.
    apply perm_swap.
  - destruct (mapM f l1), (mapM f l2), (mapM f l3); try done.
    by etrans.
Qed.

Lemma sum_floats_Permutation l1 l2 : l1 ≡ₚ l2 → sum_floats l1 = sum_floats l2.
Proof.
  unfold sum_floats.
  induction 1 as [|x l1 l2 _ IH|x y l|l1 l2 l3 _ IH1 _ IH2]; simpl.
  - done.
  - by rewrite IH.
  - ring.
  - congruence.
Qed.

Lemma month_total_Permutation d1 d2 ym ty :
  d1 ≡ₚ d2 → month_total d1 ym ty = month_total d2 ym ty.
Proof.
  intros Hp. unfold month_total. apply sum_floats_Permutation.
  by rewrite Hp.
Qed.

Lemma rows_from_keys dated rows :
  Forall (row_of_log dated) rows →
  rows = row_for dated <$> (m_year_month <$> rows).
Proof.
  induction 1 as [|row rows Hrow _ IH]; [done|].
  rewrite !fmap_cons, <- IH. f_equal.
  destruct Hrow as (_ & Hm & Hi & He & Hs & _).
  destruct row as [ym m i e s]. unfold row_for. simpl in *. congruence.
Qed.

Lemma StronglySorted_ym_lt_unique l1 l2 :
  StronglySorted ym_lt l1 → StronglySorted ym_lt l2 →
  (∀ ym, ym ∈ l1 ↔ ym ∈ l2) → l1 = l2.
Proof.
  intros H1 H2 Hsame.
  assert (Hnd : ∀ l, StronglySorted ym_lt l → NoDup l).
  { induction 1 as [|a l _ IH Ha]; constructor; [|done].
    rewrite Forall_forall in Ha. intros Hin. by destruct (Ha a Hin) as [_ ?]. }
  assert (Hle : ∀ l, StronglySorted ym_lt l → StronglySorted ym_le l).
  { induction 1 as [|a l _ IH Ha]; constructor; [done|].
    eapply Forall_impl; [exact Ha|]. by intros b [? _]. }
  apply (StronglySorted_unique ym_le); [by apply Hle|by apply Hle|].
  apply NoDup_Permutation; [by apply Hnd|by apply Hnd|done].
Qed.

(** X17: two logs with the same rows in a different order give the same
    result of [prepare_training_data], pairs or failure (sums being exact). *)
Theorem training_set_ignores_row_order (data1 data2 : list transaction) :
  data1 ≡ₚ data2 →
  prepare_training_data (Some data1) = prepare_training_data (Some data2).
Proof.
  intros Hp.
  assert (Ht : monthly_table data1 = monthly_table data2);
    [|unfold prepare_training_data; by rewrite Ht].
  pose proof (with_months_Permutation _ _ Hp) as Hd.
  destruct (with_months data1) as [d1|] eqn:Hd1,
           (with_months data2) as [d2|] eqn:Hd2; try done;
    [|unfold monthly_table; by rewrite Hd1, Hd2].
  destruct (monthly_table_rows data1 d1 Hd1) as [Hboth1 Hless1].
  destruct (monthly_table_rows data2 d2 Hd2) as [Hboth2 Hless2].
  assert (Hhas : log_has d1 "income" ∧ log_has d1 "expense"
                 ↔ log_has d2 "income" ∧ log_has d2 "expense")
    by (unfold log_has; by rewrite Hd).
  destruct (decide (log_has d1 "income" ∧ log_has d1 "expense")) as [H1|H1].
  - destruct (Hboth1 H1) as (rows1 & -> & Hs1 & Hk1 & Hr1).
    destruct (Hboth2 (proj1 Hhas H1)) as (rows2 & -> & Hs2 & Hk2 & Hr2).
    f_equal. rewrite (rows_from_keys _ _ Hr1), (rows_from_keys _ _ Hr2).
    assert (Hkeys : m_year_month <$> rows1 = m_year_month <$> rows2).
    { apply StronglySorted_ym_lt_unique; [done..|].
      intros ym. rewrite Hk1, Hk2. by setoid_rewrite Hd. }
    rewrite Hkeys. apply list_fmap_ext. intros _ ym _.
    unfold row_for.
    by rewrite !(month_total_Permutation d1 d2) by done.
  - rewrite (Hless1 H1), Hless2; [done|]. by rewrite <- Hhas.
Qed.

Lemma training_set_ignores_row_order_witness :
  prepare_training_data (Some (reverse jan_feb_log))
  = inr ([Features (lit 1000) (lit 800) (lit 1) (lit 200)], [lit 750]).
Proof.
  rewrite <- (training_set_ignores_row_order jan_feb_log (reverse jan_feb_log)).
  - by_evaluation.
  - by rewrite reverse_Permutation.
Defined.

(** ** The bounds in the normal regime *)

(** Inequalities between products with literals, through [lra] on values. *)
Ltac qc_arith :=
  repeat match goal with
  | H : ¬ (_ < _)%Qc |- _ => apply Qcnot_lt_le in H
  | H : ¬ (_ ≤ _)%Qc |- _ => apply Qcnot_le_lt in H
  end;
  unfold Qclt, Qcle, lit in *; simpl in *;
  repeat match goal with
  | H : context [Qred ?q] |- _ => rewrite (Qred_correct q) in H
  | |- context [Qred ?q] => rewrite (Qred_correct q)
  end;
  lra.

(** X18: when the expenses are positive and the income lies between 3 and
    120 times the expenses, the bounds are not inverted and the clamped
    value lies between 80% and 130% of the expenses, whatever the raw
    prediction and the month. *)
Theorem clamped_within_80_and_130_percent
    (raw expenses : pyfloat) (month : Z) (income : pyfloat) :
  0 < expenses →
  lit 3 * expenses ≤ income →
  income ≤ lit 120 * expenses →
  let '(lower, upper) := Spec.computeBounds expenses month income in
  lower ≤ upper
  ∧ expenses * lit 0.8 ≤ ExpensePredictor_bounds.postprocess raw expenses month income
  ∧ ExpensePredictor_bounds.postprocess raw expenses month income ≤ expenses * lit 1.3
  ∧ Personalized_bounds.postprocess raw expenses month income
    = ExpensePredictor_bounds.postprocess raw expenses month income
  ∧ Personalized_bounds.fallback_postprocess raw expenses month income
    = ExpensePredictor_bounds.postprocess raw expenses month income.
Proof.
  intros He Hlo Hhi.
  rewrite base_postprocess_spec, personal_postprocess_spec,
    fallback_postprocess_spec.
  unfold Spec.clampPrediction, Spec.computeBounds, Spec.clampInto,
    Spec.min3, Spec.max3, py_min, py_max. cbv zeta.
  assert (Hinc : 0 < income) by qc_arith.
  rewrite (decide_True (P := 0 < income)) by done.
  destruct (decide (month ∈ [10; 11; 12]%Z));
    [|destruct (decide (month ∈ [1; 2]%Z))];
    repeat case_decide; repeat split; try done; qc_arith.
Qed.

Lemma clamped_within_80_and_130_percent_witness :
  lit 4000 * lit 0.8
    ≤ ExpensePredictor_bounds.postprocess (lit 9000) (lit 4000) 3 (lit 50000)
  ∧ ExpensePredictor_bounds.postprocess (lit 9000) (lit 4000) 3 (lit 50000)
    ≤ lit 4000 * lit 1.3.
Proof.
  pose proof (clamped_within_80_and_130_percent
                (lit 9000) (lit 4000) 3 (lit 50000)) as H.
  destruct (Spec.computeBounds (lit 4000) 3 (lit 50000)) as [lower upper].
  destruct H as (_ & Hlo & Hhi & _); [qc_eval..|].
  by split.
Defined.
